(** * module/yuzu.py: install, version detection and path resolution

    A shallow embedding of [src/module/yuzu.py].  Python strings are Rocq
    strings, [pathlib.Path] values are lists of components, the process-wide
    [config] object, the history store, the notification channel and the
    operating system (files, processes, environment) are one explicit state
    that every operation threads, and a Python exception is the [Raise]
    outcome of a computation.  Code of other modules (network, downloader,
    archive, firmware, INI parser, window enumeration) is a record of
    collaborators the embedding is parametrised by. *)

From Stdlib Require Import Ascii String.
From stdpp Require Import base option list gmap strings.

Local Open Scope string_scope.
Local Open Scope list_scope.

(** ** Python strings *)

Module Str.

(** [s.startswith(pre)] *)
Fixpoint startswith (pre s : string) : bool :=
  match pre, s with
  | EmptyString, _ => true
  | String a pre', String b s' => if Ascii.eqb a b then startswith pre' s' else false
  | String _ _, EmptyString => false
  end.

(** [s[n:]] for [n >= 0] *)
Fixpoint slice_from (n : nat) (s : string) : string :=
  match n, s with
  | O, _ => s
  | S n', String _ s' => slice_from n' s'
  | S _, EmptyString => EmptyString
  end.

(** [s.endswith(suf)] *)
Definition endswith (suf s : string) : bool :=
  (String.length suf <=? String.length s)%nat
  && String.eqb (slice_from (String.length s - String.length suf) s) suf.

(** [sub in s] *)
Fixpoint contains (sub s : string) : bool :=
  startswith sub s
  || match s with
     | EmptyString => false
     | String _ s' => contains sub s'
     end.

(** [s.lower()], on the letters of ASCII *)
Definition lower_ascii (c : ascii) : ascii :=
  let n := nat_of_ascii c in
  if (65 <=? n)%nat && (n <=? 90)%nat then ascii_of_nat (n + 32) else c.

Fixpoint lower (s : string) : string :=
  match s with
  | EmptyString => EmptyString
  | String c s' => String (lower_ascii c) (lower s')
  end.

(** truth value of a [str] *)
Definition truthy (s : string) : bool :=
  match s with EmptyString => false | _ => true end.

(** truth value of an [Optional[str]] *)
Definition truthy_opt (o : option string) : bool :=
  match o with Some s => truthy s | None => false end.

(** [str(o)] as an f-string prints an [Optional[str]] *)
Definition fmt_opt (o : option string) : string :=
  match o with Some s => s | None => "None" end.

Fixpoint join (sep : string) (l : list string) : string :=
  match l with
  | [] => ""
  | [x] => x
  | x :: l' => x +:+ sep +:+ join sep l'
  end.

#[global] Arguments startswith : simpl never.
#[global] Arguments slice_from : simpl never.
#[global] Arguments endswith : simpl never.
#[global] Arguments contains : simpl never.

End Str.

(** ** Paths

    A [pathlib.Path] is the list of its components; a drive such as [D:] is a
    component of its own.  Both separators of Windows split.  Paths compare
    without regard to case, as [WindowsPath] does; the file system of the
    model holds paths as they are spelled. *)

Abbreviation path := (list string).

Module Path.

Definition is_sep (c : ascii) : bool :=
  Ascii.eqb c "/" || Ascii.eqb c "\".

Definition push (cur : string) (acc : list string) : list string :=
  if String.eqb cur "" || String.eqb cur "." then acc else acc ++ [String.rev cur].

(** [go cur acc s]: [cur] is the component being read, reversed. *)
Fixpoint go (cur : string) (acc : list string) (s : string) : list string :=
  match s with
  | EmptyString => push cur acc
  | String c s' =>
      if is_sep c then go "" (push cur acc) s' else go (String c cur) acc s'
  end.

(** [Path(s)] *)
Definition of_string (s : string) : path := go "" [] s.

Definition is_drive (c : string) : bool := Str.endswith ":" c.

Definition is_absolute (p : path) : bool :=
  match p with c :: _ => is_drive c | [] => false end.

(** [p.joinpath(s)]: an absolute [s] replaces [p]. *)
Definition joinpath (p : path) (s : string) : path :=
  let q := of_string s in
  if is_absolute q then q else p ++ q.

(** [p.name] *)
Definition name (p : path) : string := List.last p "".

(** [str(p)] *)
Definition to_string (p : path) : string := Str.join "\" p.

(** [p.absolute()] in a process whose working directory is [cwd] *)
Definition absolute (cwd p : path) : path :=
  if is_absolute p then p else cwd ++ p.

(** [p == q]: Windows paths compare without regard to case *)
Definition same (p q : path) : bool :=
  bool_decide (Str.lower <$> p = Str.lower <$> q).

#[global] Arguments of_string : simpl never.
#[global] Arguments same : simpl never.
#[global] Arguments joinpath : simpl never.
#[global] Arguments to_string : simpl never.
#[global] Arguments absolute : simpl never.

End Path.

(** ** Exceptions and results *)

Inductive exn : Type :=
| IgnoredException (msg : string)
| VersionNotFoundException (target_version branch emu : string)
| FailToCopyFiles (cause : exn) (msg : string)
| KeyError (key : string)
| TypeError (msg : string)
| IndexError (msg : string)
| ExternalError (msg : string).

Inductive result (A : Type) : Type :=
| Ok (a : A)
| Raise (e : exn).
Arguments Ok {A} a.
Arguments Raise {A} e.


(** ** Data model *)

Record YuzuConfig := mkYuzuConfig {
  yuzu_path : string;
  yuzu_version : option string;
  yuzu_firmware : option string;
  branch : option string
}.

Record Setting := mkSetting {
  autoDeleteAfterInstall : bool;
  rename_yuzu_to_cemu : bool
}.

Record Config := mkConfig {
  yuzu : YuzuConfig;
  setting : Setting
}.

Record Asset := mkAsset {
  asset_name : string;
  download_url : string
}.

Record ReleaseInfo := mkReleaseInfo {
  tag_name : option string;
  assets : list Asset
}.

(** [DownloadResult.files], each file by its path *)
Abbreviation DownloadInfo := (list path).

(** a parsed INI section: option name to raw value *)
Abbreviation Section_ := (gmap string string).

(** The operating system as the module sees it: the paths that exist, the
    names of the running processes, [%appdata%], the working directory and
    the directory [tempfile.gettempdir()] answers. *)
Record World := mkWorld {
  files : gset path;
  procs : list string;
  appdata : option string;
  cwd : path;
  tempdir : path
}.

(** Everything an operation can read or change. *)
Record State := mkState {
  config : Config;
  saved : option Config;
  yuzu_history : gmap string YuzuConfig;
  notified : list string;
  world : World
}.

(** ** Collaborators

    Functions of other modules and of libraries.  They see and change the
    [World] only; [get_all_window_name] is indexed by the number of the poll,
    as the titles change while the emulator starts.  [read_ini] stands for
    [ConfigParser.read] of an existing file and gives the sections, or raises
    on a malformed file.  [decode_yuzu_path] receives what
    [data_storage.get] returned, [None] when the key is absent. *)
Record Collab := mkCollab {
  get_yuzu_release_info_by_version : string -> string -> World -> result ReleaseInfo;
  get_github_download_url : string -> string;
  download : string -> World -> result DownloadInfo * World;
  uncompress : path -> path -> World -> result unit * World;
  copytree : path -> path -> World -> result unit * World;
  check_and_install_msvc : World -> result unit * World;
  install_firmware : option string -> path -> World -> result (option string) * World;
  get_all_window_name : nat -> World -> result (list string);
  read_ini : path -> World -> result (gmap string Section_);
  decode_yuzu_path : option string -> result string;
  default_YuzuConfig : YuzuConfig
}.

(** ** The monad of operations: state passing with exceptions.  A raised
    exception keeps the state reached so far, as in Python. *)

Definition M (A : Type) : Type := State -> result A * State.

Definition ret {A} (a : A) : M A := fun st => (Ok a, st).

Definition raise {A} (e : exn) : M A := fun st => (Raise e, st).

Definition bind {A B} (m : M A) (k : A -> M B) : M B :=
  fun st =>
    match m st with
    | (Ok a, st') => k a st'
    | (Raise e, st') => (Raise e, st')
    end.

(** [try: m  except Exception as e: h e] *)
Definition try_except {A} (m : M A) (h : exn -> M A) : M A :=
  fun st =>
    match m st with
    | (Ok a, st') => (Ok a, st')
    | (Raise e, st') => h e st'
    end.

Declare Scope yuzu_scope.
Delimit Scope yuzu_scope with yuzu.
Notation "x <- c ;; k" := (bind c (fun x => k))
  (at level 100, c at next level, right associativity) : yuzu_scope.
Notation "c ;;; k" := (bind c (fun _ => k))
  (at level 100, right associativity) : yuzu_scope.
Local Open Scope yuzu_scope.

Definition get_config : M Config := fun st => (Ok (config st), st).
Definition get_world : M World := fun st => (Ok (world st), st).
Definition get_history : M (gmap string YuzuConfig) := fun st => (Ok (yuzu_history st), st).

Definition set_config (c : Config) : M unit :=
  fun st => (Ok tt, mkState c (saved st) (yuzu_history st) (notified st) (world st)).

Definition set_world (w : World) : M unit :=
  fun st => (Ok tt, mkState (config st) (saved st) (yuzu_history st) (notified st) w).

Definition set_history (h : gmap string YuzuConfig) : M unit :=
  fun st => (Ok tt, mkState (config st) (saved st) h (notified st) (world st)).

(** [config.yuzu = y] *)
Definition set_yuzu (y : YuzuConfig) : M unit :=
  c <- get_config ;; set_config (mkConfig y (setting c)).

(** a collaborator that changes the world *)
Definition call {A} (f : World -> result A * World) : M A :=
  fun st =>
    let '(r, w) := f (world st) in
    (r, mkState (config st) (saved st) (yuzu_history st) (notified st) w).

(** a collaborator that only reads the world *)
Definition ask {A} (f : World -> result A) : M A :=
  fun st => (f (world st), st).

Definition of_result {A} (r : result A) : M A := fun st => (r, st).

(** ** Files, processes, notifications, persistence *)

Definition exists_in (w : World) (p : path) : bool := bool_decide (p ∈ files w).

Definition with_files (w : World) (fs : gset path) : World :=
  mkWorld fs (procs w) (appdata w) (cwd w) (tempdir w).

Definition with_procs (w : World) (ps : list string) : World :=
  mkWorld (files w) ps (appdata w) (cwd w) (tempdir w).

(** the non-empty prefixes of [p]: [p] and its parents *)
Definition parents_and_self (p : path) : list path :=
  (fun k => take k p) <$> seq 1 (length p).

(** [p.exists()] *)
Definition exists_ (p : path) : M bool :=
  w <- get_world ;; ret (exists_in w p).

(** [p.mkdir(parents=True, exist_ok=True)] *)
Definition mkdir_parents (p : path) : M unit :=
  w <- get_world ;;
  set_world (with_files w (files w ∪ list_to_set (parents_and_self p))).

(** [os.remove(p)] *)
Definition os_remove (p : path) : M unit :=
  w <- get_world ;;
  if exists_in w p then set_world (with_files w (files w ∖ {[p]}))
  else raise (ExternalError "FileNotFoundError").

(** [shutil.rmtree(p)] *)
Definition rmtree (p : path) : M unit :=
  w <- get_world ;;
  if exists_in w p
  then set_world (with_files w (filter (fun q => ¬ p `prefix_of` q) (files w)))
  else raise (ExternalError "FileNotFoundError").

(** [os.replace(src, dst)] *)
Definition os_replace (src dst : path) : M unit :=
  w <- get_world ;;
  if exists_in w src then set_world (with_files w (files w ∖ {[src]} ∪ {[dst]}))
  else raise (ExternalError "FileNotFoundError").

(** [subprocess.Popen([p])]: a process named after the executable runs *)
Definition popen (p : path) : M unit :=
  w <- get_world ;; set_world (with_procs w (Path.name p :: procs w)).

(** Modelled from the spec: [utils.common.find_all_instances], "process
    enumeration by name". *)
Definition find_all_instances (exe_name : string) : M (list string) :=
  w <- get_world ;; ret (filter (fun n => n = exe_name) (procs w)).

(** Modelled from the spec: [utils.common.kill_all_instances], "process
    termination by name". *)
Definition kill_all_instances (exe_name : string) : M unit :=
  w <- get_world ;; set_world (with_procs w (filter (fun n => n ≠ exe_name) (procs w))).

(** Modelled from the spec: [module.msg_notifier.send_notify], "accepts a
    human-readable status string, side-effect only". *)
Definition send_notify (msg : string) : M unit :=
  fun st => (Ok tt, mkState (config st) (saved st) (yuzu_history st) (notified st ++ [msg]) (world st)).

(** Modelled from the spec: [config.dump_config], the "explicit
    persist-to-disk operation" of the configuration store. *)
Definition dump_config : M unit :=
  fun st => (Ok tt, mkState (config st) (Some (config st)) (yuzu_history st) (notified st) (world st)).

(** Modelled from the spec: [storage.add_yuzu_history], "historical configs
    keyed by resolved absolute path are retained in a side history store". *)
Definition add_yuzu_history (y : YuzuConfig) : M unit :=
  w <- get_world ;;
  h <- get_history ;;
  set_history (<[Path.to_string (Path.absolute (cwd w) (Path.of_string (yuzu_path y))) := y]> h).

(** [os.environ['appdata']] *)
Definition environ_appdata : M string :=
  w <- get_world ;;
  match appdata w with
  | Some s => ret s
  | None => raise (KeyError "appdata")
  end.

(** [config.yuzu.yuzu_version = v] *)
Definition set_yuzu_version (v : option string) : M unit :=
  c <- get_config ;;
  set_yuzu (mkYuzuConfig (yuzu_path (yuzu c)) v (yuzu_firmware (yuzu c)) (branch (yuzu c))).

(** [config.yuzu.branch = b] *)
Definition set_branch (b : option string) : M unit :=
  c <- get_config ;;
  set_yuzu (mkYuzuConfig (yuzu_path (yuzu c)) (yuzu_version (yuzu c)) (yuzu_firmware (yuzu c)) b).

(** [config.yuzu.yuzu_firmware = f] *)
Definition set_yuzu_firmware (f : option string) : M unit :=
  c <- get_config ;;
  set_yuzu (mkYuzuConfig (yuzu_path (yuzu c)) (yuzu_version (yuzu c)) f (branch (yuzu c))).

Definition detect_exe_list : list string := ["yuzu.exe"; "eden.exe"; "suzu.exe"; "cemu.exe"].

Definition get_emu_name : M string :=
  c <- get_config ;;
  if bool_decide (branch (yuzu c) = Some "eden") then ret "eden" else ret "yuzu".

(** ** The operations of [module/yuzu.py] *)

Section Yuzu.

Variable E : Collab.

(** The three naming patterns of a downloadable asset, as the [if]/[elif]
    chain of [download_yuzu] tests them. *)
Definition asset_matches (asset : Asset) : bool :=
  if Str.endswith ".7z" (asset_name asset) then true
  else if Str.startswith "Windows-Yuzu-EA-" (asset_name asset)
          && Str.endswith ".zip" (asset_name asset) then true
  else if Str.startswith "Eden-Windows-" (asset_name asset)
          && Str.endswith ".zip" (asset_name asset) then true
  else false.

(** The [for asset in assets] loop of [download_yuzu]; [None] is the
    initial [url = None]. *)
Fixpoint select_url (assets : list Asset) : option string :=
  match assets with
  | [] => None
  | asset :: rest =>
      if Str.endswith ".7z" (asset_name asset)
      then Some (get_github_download_url E (download_url asset))
      else if Str.startswith "Windows-Yuzu-EA-" (asset_name asset)
              && Str.endswith ".zip" (asset_name asset)
      then Some (get_github_download_url E (download_url asset))
      else if Str.startswith "Eden-Windows-" (asset_name asset)
              && Str.endswith ".zip" (asset_name asset)
      then Some (get_github_download_url E (download_url asset))
      else select_url rest
  end.

Definition download_yuzu (target_version branch : string) : M path :=
  if negb (String.eqb branch "eden")
  then raise (IgnoredException "Only support install yuzu on branch [eden]")
  else
    emu <- get_emu_name ;;
    send_notify ("正在获取 " +:+ emu +:+ " 版本信息...") ;;;
    release_info <- ask (get_yuzu_release_info_by_version E target_version branch) ;;
    if negb (Str.truthy_opt (tag_name release_info))
    then raise (VersionNotFoundException target_version branch "yuzu")
    else
      emu <- get_emu_name ;;
      send_notify ("开始下载 " +:+ emu +:+ "...") ;;;
      match select_url (assets release_info) with   (* [if not url]: [None] or [''] *)
      | Some (String c u) =>
          info <- call (download E (String c u)) ;;
          match info with
          | file :: _ => ret file
          | [] => raise (IndexError "list index out of range")
          end
      | _ => raise (IgnoredException "Fail to fetch yuzu download url.")
      end.

Definition unzip_yuzu (package_path : path) (target_dir : option path) : M path :=
  emu <- get_emu_name ;;
  send_notify ("正在解压 " +:+ emu +:+ " 文件...") ;;;
  w <- get_world ;;
  let target_dir := default (tempdir w) target_dir in
  call (uncompress E package_path target_dir) ;;;
  ret target_dir.

(** [tmp_dir.glob('yuzu-windows-msvc-source-*.tar.xz')]: the children of
    [tmp_dir] whose name fits the pattern *)
Definition is_source_tarball (tmp_dir q : path) : bool :=
  bool_decide (tmp_dir `prefix_of` q)
  && match drop (length tmp_dir) q with
     | [n] =>
         Str.startswith "yuzu-windows-msvc-source-" n
         && Str.endswith ".tar.xz" n
         && (String.length "yuzu-windows-msvc-source-.tar.xz" <=? String.length n)%nat
     | _ => false
     end.

Definition copy_back_yuzu_files (tmp_dir yuzu_path : path) : M unit :=
  w <- get_world ;;
  set_world (with_files w (filter (fun q => ¬ is_source_tarball tmp_dir q) (files w))) ;;;
  send_notify "安装 yuzu 文件至目录..." ;;;
  try_except (call (copytree E tmp_dir yuzu_path))
             (fun e => raise (FailToCopyFiles e "Yuzu 文件复制失败")) ;;;
  rmtree tmp_dir.

Definition install_eden (target_version : string) : M unit :=
  c <- get_config ;;
  let yz_dir := Path.of_string (yuzu_path (yuzu c)) in
  yuzu_package_path <- download_yuzu target_version "eden" ;;
  w <- get_world ;;
  let tmp_dir := Path.joinpath (tempdir w) "eden-install" in
  unzip_yuzu yuzu_package_path (Some tmp_dir) ;;;
  copy_back_yuzu_files tmp_dir yz_dir ;;;
  c <- get_config ;;
  if autoDeleteAfterInstall (setting c) then os_remove yuzu_package_path else ret tt.

Fixpoint first_existing (w : World) (yz_path : path) (names : list string) : option path :=
  match names with
  | [] => None
  | exe_name :: rest =>
      if exists_in w (Path.joinpath yz_path exe_name)
      then Some (Path.joinpath yz_path exe_name)
      else first_existing w yz_path rest
  end.

Definition exe_path_of (c : Config) (w : World) : path :=
  let yz_path := Path.of_string (yuzu_path (yuzu c)) in
  if (rename_yuzu_to_cemu (setting c) || negb (exists_in w (Path.joinpath yz_path "yuzu.exe")))
     && exists_in w (Path.joinpath yz_path "cemu.exe")
  then Path.joinpath yz_path "cemu.exe"
  else match first_existing w yz_path detect_exe_list with
       | Some p => p
       | None => Path.joinpath yz_path "yuzu.exe"
       end.

Definition get_yuzu_exe_path : M path :=
  c <- get_config ;; w <- get_world ;; ret (exe_path_of c w).

Definition install_yuzu (target_version branch : string) : M unit :=
  c <- get_config ;;
  if bool_decide (Some target_version = yuzu_version (yuzu c))
  then
    emu <- get_emu_name ;;
    send_notify ("当前就是 [" +:+ target_version +:+ "] 版本的 " +:+ emu +:+ " , 跳过安装.")
  else if negb (String.eqb branch "eden")
  then
    send_notify "目前仅支持安装 Eden 模拟器" ;;;
    raise (IgnoredException "Only support install yuzu on branch [eden]")
  else
    install_eden target_version ;;;
    c <- get_config ;;
    let yz_dir := Path.of_string (yuzu_path (yuzu c)) in
    mkdir_parents yz_dir ;;;
    exe_path <- get_yuzu_exe_path ;;
    present <- exists_ exe_path ;;
    (if rename_yuzu_to_cemu (setting c) && present
     then
       os_replace exe_path (Path.joinpath yz_dir "cemu.exe") ;;;
       send_notify ("重命名 " +:+ Path.name exe_path +:+ "  为 "
                    +:+ Path.to_string (Path.joinpath yz_dir "cemu.exe"))
     else ret tt) ;;;
    set_yuzu_version (Some target_version) ;;;
    set_branch (Some branch) ;;;
    dump_config ;;;
    call (check_and_install_msvc E) ;;;
    emu <- get_emu_name ;;
    send_notify (emu +:+ " " +:+ branch +:+ " [" +:+ target_version +:+ "] 安装成功.").

Definition start_yuzu : M unit :=
  yz_path <- get_yuzu_exe_path ;;
  present <- exists_ yz_path ;;
  if present then popen yz_path
  else raise (IgnoredException ("yuzu not exist in [" +:+ Path.to_string yz_path +:+ "]")).

(** The [for window_name in get_all_window_name()] loop of
    [detect_yuzu_version], with its [break]s; [version] and [branch] are the
    locals of the function. *)
Fixpoint scan_windows (names : list string) (version branch : option string)
  : M (option string * option string) :=
  match names with
  | [] => ret (version, branch)
  | window_name :: rest =>
      if Str.startswith "yuzu " window_name then
        let '(version, branch) :=
          if Str.startswith "yuzu Early Access " window_name
          then (Str.slice_from 18 window_name, "ea")
          else (Str.slice_from 5 window_name, "mainline") in
        send_notify ("当前 yuzu 版本 [" +:+ version +:+ "]") ;;;
        ret (Some version, Some branch)
      else if Str.startswith "Eden | " window_name then
        let version := Str.slice_from 7 window_name in
        send_notify ("当前 Eden 模拟器版本 [" +:+ version +:+ "]") ;;;
        ret (Some version, Some "eden")
      else scan_windows rest version branch
  end.

(** The [while try_cnt < 30 and not version] loop, by recursion on
    [30 - try_cnt]; the [time.sleep] between two polls shows in the index
    [get_all_window_name] is asked with.  An exception of
    [get_all_window_name] leaves the loop and the [try] with the locals as
    they are. *)
Fixpoint poll_windows (remaining try_cnt : nat) (version branch : option string)
  : M (option string * option string) :=
  match remaining with
  | O => ret (version, branch)
  | S remaining' =>
      if Str.truthy_opt version then ret (version, branch)
      else
        w <- get_world ;;
        match get_all_window_name E try_cnt w with
        | Raise _ => ret (version, branch)
        | Ok names =>
            vb <- scan_windows names version branch ;;
            poll_windows remaining' (S try_cnt) (fst vb) (snd vb)
        end
  end.

Definition detect_yuzu_version : M (option string) :=
  emu <- get_emu_name ;;
  send_notify ("正在检测 " +:+ emu +:+ " 版本...") ;;;
  yz_path <- get_yuzu_exe_path ;;
  present <- exists_ yz_path ;;
  if negb present then
    emu <- get_emu_name ;;
    send_notify ("未能找到 " +:+ emu +:+ " 程序") ;;;
    set_yuzu_version None ;;;
    dump_config ;;;
    ret None
  else
    instances <- find_all_instances (Path.name yz_path) ;;
    match instances with
    | _ :: _ =>
        send_notify "yuzu 正在运行中, 请先关闭之." ;;;
        ret None
    | [] =>
        send_notify "正在启动 yuzu ..." ;;;
        w <- get_world ;;
        popen (Path.absolute (cwd w) yz_path) ;;;
        vb <- poll_windows 30 0 None None ;;
        let version := fst vb in
        let branch := snd vb in
        kill_all_instances (Path.name yz_path) ;;;
        (if Str.truthy_opt version then set_branch branch
         else
           emu <- get_emu_name ;;
           send_notify ("检测失败！没有找到 " +:+ emu +:+ " 窗口...")) ;;;
        set_yuzu_version version ;;;
        dump_config ;;;
        ret version
    end.

Definition get_yuzu_user_path : M path :=
  c <- get_config ;;
  let yz_dir := Path.of_string (yuzu_path (yuzu c)) in
  in_tree <- exists_ (Path.joinpath yz_dir "user/") ;;
  if in_tree then ret (Path.joinpath yz_dir "user/")
  else
    a <- environ_appdata ;;
    roaming_yuzu <- exists_ (Path.joinpath (Path.of_string a) "yuzu/") ;;
    if roaming_yuzu then
      a <- environ_appdata ;; ret (Path.joinpath (Path.of_string a) "yuzu/")
    else
      a <- environ_appdata ;;
      roaming_eden <- exists_ (Path.joinpath (Path.of_string a) "eden/") ;;
      if roaming_eden then
        a <- environ_appdata ;; ret (Path.joinpath (Path.of_string a) "eden/")
      else ret (Path.joinpath yz_dir "user/").

(** [None] is the implicit [return None] when the file does not exist;
    [yuzu_qt_config['Data%20Storage']] raises [KeyError] on a missing
    section. *)
Definition _get_yuzu_data_storage_config (user_path : path) : M (option Section_) :=
  let config_path := Path.joinpath user_path "config/qt-config.ini" in
  present <- exists_ config_path ;;
  if present then
    w <- get_world ;;
    yuzu_qt_config <- ask (read_ini E (Path.absolute (cwd w) config_path)) ;;
    match yuzu_qt_config !! "Data%20Storage" with
    | Some data_storage => ret (Some data_storage)
    | None => raise (KeyError "Data%20Storage")
    end
  else ret None.

(** [if data_storage:]: [None] and a section without options are false *)
Definition section_truthy (data_storage : option Section_) : option Section_ :=
  match data_storage with
  | Some sec => if bool_decide (sec = ∅) then None else Some sec
  | None => None
  end.

Definition get_yuzu_nand_path : M path :=
  user_path <- get_yuzu_user_path ;;
  let nand_path := Path.joinpath user_path "nand" in
  try_except
    (data_storage <- _get_yuzu_data_storage_config user_path ;;
     match section_truthy data_storage with
     | Some sec =>
         let path_str := sec !! "nand_directory" in
         decoded <- of_result (decode_yuzu_path E path_str) ;;
         ret (Path.of_string decoded)
     | None => ret nand_path
     end)
    (fun _ => ret nand_path).

(** ['\\u' in path_str] raises [TypeError] when [path_str] is [None]. *)
Definition get_yuzu_load_path : M path :=
  user_path <- get_yuzu_user_path ;;
  let load_path := Path.joinpath user_path "load" in
  try_except
    (data_storage <- _get_yuzu_data_storage_config user_path ;;
     match section_truthy data_storage with
     | Some sec =>
         let path_str := sec !! "load_directory" in
         match path_str with
         | None => raise (TypeError "argument of type 'NoneType' is not iterable")
         | Some raw =>
             if Str.contains "\u" raw
             then decoded <- of_result (decode_yuzu_path E path_str) ;;
                  ret (Path.of_string decoded)
             else ret (Path.of_string raw)
         end
     | None => ret load_path
     end)
    (fun _ => ret load_path).

Definition install_firmware_to_yuzu (firmware_version : option string) : M unit :=
  c <- get_config ;;
  if bool_decide (firmware_version = yuzu_firmware (yuzu c))
  then
    send_notify ("当前的 固件 就是 [" +:+ Str.fmt_opt firmware_version +:+ "], 跳过安装.")
  else
    nand_path <- get_yuzu_nand_path ;;
    let firmware_path := Path.joinpath nand_path "system\Contents\registered" in
    new_version <- call (install_firmware E firmware_version firmware_path) ;;
    if Str.truthy_opt new_version then
      set_yuzu_firmware new_version ;;;
      dump_config ;;;
      send_notify ("固件已安装至 " +:+ Path.to_string firmware_path) ;;;
      send_notify ("固件 [" +:+ Str.fmt_opt firmware_version
                   +:+ "] 安装成功，请安装相应的 key 至 yuzu.")
    else ret tt.

(** [cfg] is the history entry of the new path when there is one, so
    [cfg.yuzu_path = ...] writes through to the entry. *)
Definition update_yuzu_path (new_yuzu_path : string) : M unit :=
  let new_path := Path.of_string new_yuzu_path in
  present <- exists_ new_path ;;
  (if negb present then mkdir_parents new_path else ret tt) ;;;
  c <- get_config ;;
  w <- get_world ;;
  if Path.same (Path.absolute (cwd w) new_path)
               (Path.absolute (cwd w) (Path.of_string (yuzu_path (yuzu c))))
  then ret tt
  else
    add_yuzu_history (yuzu c) ;;;
    h <- get_history ;;
    let key := Path.to_string (Path.absolute (cwd w) new_path) in
    let cfg := default (default_YuzuConfig E) (h !! key) in
    let cfg := mkYuzuConfig key (yuzu_version cfg) (yuzu_firmware cfg) (branch cfg) in
    (if bool_decide (is_Some (h !! key)) then set_history (<[key := cfg]> h) else ret tt) ;;;
    set_yuzu cfg ;;;
    h <- get_history ;;
    (if negb (bool_decide (is_Some (h !! yuzu_path cfg))) then add_yuzu_history cfg else ret tt) ;;;
    dump_config.

End Yuzu.

(** ** Vocabulary of the statements

    Derived notions the lemmas and theorems below are stated with. *)

Section Vocabulary.

Variable E : Collab.

(** what [get_emu_name] answers under configuration [c] *)
Definition emu_name_of (c : Config) : string :=
  if bool_decide (branch (yuzu c) = Some "eden") then "eden" else "yuzu".

(** The asset the spec describes: the first one, in list order, whose name
    fits one of the three patterns. *)
Definition first_matching_asset (assets : list Asset) : option Asset :=
  List.find asset_matches assets.

(** the URL [download_yuzu] goes on with for an asset *)
Definition url_of (asset : Asset) : string :=
  get_github_download_url E (download_url asset).

(** what [download_yuzu] returns once [download] has answered *)
Definition downloaded_file (r : result DownloadInfo) : result path :=
  match r with
  | Ok (file :: _) => Ok file
  | Ok [] => Raise (IndexError "list index out of range")
  | Raise e => Raise e
  end.

(** [st'] differs from [st] at most in the notifications sent. *)
Definition only_notified (st st' : State) : Prop :=
  config st' = config st /\ saved st' = saved st
  /\ yuzu_history st' = yuzu_history st /\ world st' = world st.

(** a title the detector reads a version from *)
Definition recognised (window_name : string) : bool :=
  Str.startswith "yuzu " window_name || Str.startswith "Eden | " window_name.

(** version and branch read off one title, by the prefix-specific
    offsets 18, 5 and 7 *)
Definition parse_title (window_name : string) : option (string * string) :=
  if Str.startswith "yuzu " window_name then
    if Str.startswith "yuzu Early Access " window_name
    then Some (Str.slice_from 18 window_name, "ea")
    else Some (Str.slice_from 5 window_name, "mainline")
  else if Str.startswith "Eden | " window_name
  then Some (Str.slice_from 7 window_name, "eden")
  else None.

(** the first title of the list that is recognised *)
Fixpoint first_title (names : list string) : option (string * string) :=
  match names with
  | [] => None
  | window_name :: rest =>
      match parse_title window_name with
      | Some vb => Some vb
      | None => first_title rest
      end
  end.

(** the locals [version] and [branch] after a scan that found [found] *)
Definition locals_after (found : option (string * string)) (version branch : option string)
  : option string * option string :=
  match found with
  | Some (v, b) => (Some v, Some b)
  | None => (version, branch)
  end.

(** the executable [get_yuzu_exe_path] resolves in [st] *)
Definition exe_of (st : State) : path := exe_path_of (config st) (world st).

(** a process named like the executable runs already *)
Definition busy (st : State) : bool :=
  match filter (fun n => n = Path.name (exe_of st)) (procs (world st)) with
  | [] => false
  | _ :: _ => true
  end.

(** the world once [detect_yuzu_version] has started the emulator *)
Definition launched_world (st : State) : World :=
  with_procs (world st)
    (Path.name (Path.absolute (cwd (world st)) (exe_of st)) :: procs (world st)).

(** the state in which the polling starts *)
Definition launched (st : State) : State :=
  mkState (config st) (saved st) (yuzu_history st)
          ((notified st ++ ["正在检测 " +:+ emu_name_of (config st) +:+ " 版本..."])
             ++ ["正在启动 yuzu ..."])
          (launched_world st).

(** the three titles of the claim, with the version and branch read off *)
Definition sample_titles : list (string * string * string) :=
  [("Eden | 1.2.3", "1.2.3", "eden");
   ("yuzu Early Access 1234", "1234", "ea");
   ("yuzu 1234", "1234", "mainline")].

(** the unsupported-branch signal *)
Definition unsupported : exn :=
  IgnoredException "Only support install yuzu on branch [eden]".

(** the value [get_yuzu_nand_path] computes inside its [try] *)
Definition nand_from (user_path : path) (r : result (option Section_)) : path :=
  match r with
  | Ok data_storage =>
      match section_truthy data_storage with
      | Some sec =>
          match decode_yuzu_path E (sec !! "nand_directory") with
          | Ok decoded => Path.of_string decoded
          | Raise _ => Path.joinpath user_path "nand"
          end
      | None => Path.joinpath user_path "nand"
      end
  | Raise _ => Path.joinpath user_path "nand"
  end.



(** [st'] has the configuration, its persisted copy and the history of
    [st]; the world and the notifications may differ. *)
Definition keeps_config (st st' : State) : Prop :=
  config st' = config st /\ saved st' = saved st /\ yuzu_history st' = yuzu_history st.

(** [m] leaves configuration, persisted copy and history alone, whether it
    returns or raises *)
Definition preserves {A} (m : M A) : Prop :=
  forall st, keeps_config st (snd (m st)).

(** A field is set when it holds a non-empty string, the test the module
    itself applies ([if version:]). *)
Definition is_set (o : option string) : bool := Str.truthy_opt o.

(** the invariant of the spec: both fields set, or both absent *)
Definition both_or_neither (y : YuzuConfig) : bool :=
  Bool.eqb (is_set (yuzu_version y)) (is_set (branch y)).

(** the half of it the code keeps: a recorded version has a branch *)
Definition version_has_branch (y : YuzuConfig) : Prop :=
  is_set (yuzu_version y) = true -> is_set (branch y) = true.

(** [version_has_branch] for the configuration, for every entry of the
    history and for a fresh [YuzuConfig()] *)
Definition consistent (st : State) : Prop :=
  version_has_branch (yuzu (config st))
  /\ (forall k y, yuzu_history st !! k = Some y -> version_has_branch y)
  /\ version_has_branch (default_YuzuConfig E).

(** the locals of the detector: a version comes with a branch *)
Definition locals_ok (vb : option string * option string) : Prop :=
  fst vb = None \/ is_set (snd vb) = true.


End Vocabulary.

(** ** Sample collaborators and states, on which the results are run *)

Module Demo.

Definition release : ReleaseInfo :=
  mkReleaseInfo (Some "v0.0.3")
    [mkAsset "Eden-Source.tar.zst" "https://example.org/src";
     mkAsset "Eden-Windows-v0.0.3.zip" "https://example.org/win";
     mkAsset "Eden-Linux.AppImage" "https://example.org/linux"].

Definition titles : list string := ["Program Manager"; "Eden | 1.2.3"; "Settings"].

Definition data_storage : Section_ :=
  {[ "nand_directory" := "E:/\u6e38\u620f/nand"; "load_directory" := "E:/data/load" ]}.

Definition ini : gmap string Section_ := {[ "Data%20Storage" := data_storage ]}.

(** a decoder that knows one escaped string and rejects [None] *)
Definition decode (o : option string) : result string :=
  match o with
  | Some s => if String.eqb s "E:/\u6e38\u620f/nand" then Ok "E:/games/nand" else Ok s
  | None => Raise (TypeError "NoneType")
  end.

(** collaborators that answer [rel] for every release, copy trees when
    [copy] is [None] and fail with that error otherwise, show [wins n] at
    the [n]-th enumeration of the windows and parse the Qt config file
    as [parsed] *)
Definition make (rel : result ReleaseInfo) (copy : option exn)
           (wins : nat -> result (list string))
           (parsed : result (gmap string Section_)) : Collab :=
  mkCollab
    (fun _ _ _ => rel)
    (fun url => url)
    (fun _ w => (Ok [["D:"; "tmp"; "eden.zip"]],
                 with_files w (files w ∪ {[ ["D:"; "tmp"; "eden.zip"] ]})))
    (fun _ dir w => (Ok tt, with_files w (files w ∪ {[ dir; dir ++ ["eden.exe"] ]})))
    (fun src dst w =>
       match copy with
       | Some e => (Raise e, w)
       | None =>
           (Ok tt, with_files w (files w ∪ set_map (fun q => dst ++ drop (length src) q)
                                             (filter (fun q => src `prefix_of` q) (files w))))
       end)
    (fun w => (Ok tt, w))
    (fun v _ w => (Ok v, w))
    (fun n _ => wins n)
    (fun _ _ => parsed)
    decode
    (mkYuzuConfig "D:\Yuzu" None None (Some "ea")).

Definition env : Collab := make (Ok release) None (fun _ => Ok titles) (Ok ini).

Definition world0 : World :=
  mkWorld {[ ["D:"; "Yuzu"]; ["D:"; "Yuzu"; "eden.exe"] ]} [] (Some "C:\Users\me\AppData\Roaming")
          ["D:"; "tools"] ["D:"; "tmp"].

Definition state0 : State :=
  mkState (mkConfig (mkYuzuConfig "D:\Yuzu" (Some "v0.0.2") None (Some "eden"))
                    (mkSetting false false))
          None ∅ [] world0.

(** a world in which the emulator has written its Qt config *)
Definition world_qt : World :=
  mkWorld {[ ["D:"; "Yuzu"]; ["D:"; "Yuzu"; "eden.exe"]; ["D:"; "Yuzu"; "user"];
             ["D:"; "Yuzu"; "user"; "config"; "qt-config.ini"] ]}
          [] (Some "C:\Users\me\AppData\Roaming") ["D:"; "tools"] ["D:"; "tmp"].

Definition state_qt : State :=
  mkState (mkConfig (mkYuzuConfig "D:\Yuzu" (Some "v0.0.2") None (Some "eden"))
                    (mkSetting false false))
          None ∅ [] world_qt.

End Demo.

Module DemoAssets.

Definition lone : Asset := mkAsset "Eden-Windows-v0.0.3.7z" "".

Definition info : ReleaseInfo :=
  mkReleaseInfo (Some "v0.0.3") [mkAsset "notes.txt" "https://example.org/notes"; lone].

Definition env : Collab :=
  Demo.make (Ok info) None (fun _ => Ok Demo.titles) (Ok Demo.ini).

End DemoAssets.

Module DemoWindows.

Definition titles : list string := ["Program Manager"; "yuzu 1234"; "Eden | 1.2.3"].

Definition env : Collab :=
  Demo.make (Ok Demo.release) None (fun _ => Ok titles) (Ok Demo.ini).

End DemoWindows.

Module DemoPaths.

(** a section that names neither directory *)
Definition other_keys : Section_ := {[ "dump_directory" := "E:/data/dump" ]}.

Definition env : Collab :=
  Demo.make (Ok Demo.release) None (fun _ => Ok Demo.titles)
            (Ok {[ "Data%20Storage" := other_keys ]}).

(** a Qt config file that does not parse *)
Definition env_broken : Collab :=
  Demo.make (Ok Demo.release) None (fun _ => Ok Demo.titles)
            (Raise (ExternalError "MissingSectionHeaderError")).

End DemoPaths.

Module DemoUpdate.

(** the configured install directory has been deleted by hand *)
Definition world : World :=
  mkWorld {[ ["D:"] ]} [] (Some "C:\Users\me\AppData\Roaming") ["D:"; "tools"] ["D:"; "tmp"].

Definition state : State :=
  mkState (config Demo.state0) None ∅ [] world.

End DemoUpdate.

Module DemoBusy.

(** the emulator is running *)
Definition world : World :=
  mkWorld (files Demo.world0) ["explorer.exe"; "eden.exe"] (appdata Demo.world0)
          (cwd Demo.world0) (tempdir Demo.world0).

Definition state : State := mkState (config Demo.state0) None ∅ [] world.

End DemoBusy.

Module DemoErrors.


Definition env_copy_fails : Collab :=
  Demo.make (Ok Demo.release) (Some (ExternalError "PermissionError"))
            (fun _ => Ok Demo.titles) (Ok Demo.ini).


End DemoErrors.

(** ** Further operations of [module/yuzu.py] *)

Module Text.

(** the line feed *)
Definition nl : string := String (ascii_of_nat 10) "".

(** the double quote *)
Definition dq : string := String (ascii_of_nat 34) "".

(** [s.split(c)[0]]: what precedes the first [c], all of [s] without one *)
Fixpoint before_first (c : ascii) (s : string) : string :=
  match s with
  | EmptyString => EmptyString
  | String a s' => if Ascii.eqb a c then EmptyString else String a (before_first c s')
  end.

(** The length in bytes of the line boundary [s] starts with, [0] without
    one.  The boundaries of [str.splitlines] are LF, CR, CR LF, VT, FF, FS,
    GS, RS, NEL (C2 85 in UTF-8), LS and PS (E2 80 A8, E2 80 A9). *)
Definition break_len (s : string) : nat :=
  match s with
  | EmptyString => 0
  | String a s1 =>
      match nat_of_ascii a with
      | 13 =>
          match s1 with
          | String b _ => if Nat.eqb (nat_of_ascii b) 10 then 2 else 1
          | EmptyString => 1
          end
      | 10 | 11 | 12 | 28 | 29 | 30 => 1
      | 194 =>
          match s1 with
          | String b _ => if Nat.eqb (nat_of_ascii b) 133 then 2 else 0
          | EmptyString => 0
          end
      | 226 =>
          match s1 with
          | String b (String c _) =>
              if Nat.eqb (nat_of_ascii b) 128
                 && (Nat.eqb (nat_of_ascii c) 168 || Nat.eqb (nat_of_ascii c) 169)
              then 3 else 0
          | _ => 0
          end
      | _ => 0
      end
  end.

(** [go skip cur s]: [cur] is the line being read, reversed; [skip] bytes
    of a boundary are still to be dropped. *)
Fixpoint splitlines_go (skip : nat) (cur : string) (s : string) : list string :=
  match s with
  | EmptyString => if String.eqb cur "" then [] else [String.rev cur]
  | String a s' =>
      match skip with
      | S k => splitlines_go k cur s'
      | O =>
          match break_len s with
          | O => splitlines_go 0 (String a cur) s'
          | S k => String.rev cur :: splitlines_go k "" s'
          end
      end
  end.

(** [s.splitlines()] *)
Definition splitlines (s : string) : list string := splitlines_go 0 "" s.

(** the first word of a command line *)
Definition program (cmd : string) : string := before_first " " cmd.

#[global] Arguments before_first : simpl never.
#[global] Arguments break_len : simpl never.
#[global] Arguments splitlines : simpl never.

End Text.

(** [p.touch(exist_ok=True)]: the directory of [p] has to exist *)
Definition touch (p : path) : M unit :=
  w <- get_world ;;
  match removelast p with
  | [] => set_world (with_files w (files w ∪ {[p]}))
  | parent =>
      if exists_in w parent then set_world (with_files w (files w ∪ {[p]}))
      else raise (ExternalError "FileNotFoundError")
  end.

(** [subprocess.Popen(cmd)] for a command line: its program runs *)
Definition popen_command (cmd : string) : M unit :=
  w <- get_world ;; set_world (with_procs w (Text.program cmd :: procs w)).

Definition open_yuzu_keys_folder : M unit :=
  user_path <- get_yuzu_user_path ;;
  let keys_path := Path.joinpath user_path "keys" in
  mkdir_parents keys_path ;;;
  touch (Path.joinpath keys_path "把prod.keys放当前目录.txt") ;;;
  w <- get_world ;;
  popen_command ("explorer " +:+ Text.dq
                 +:+ Path.to_string (Path.absolute (cwd w) keys_path) +:+ Text.dq).

(** one element of the answer of the GitHub commits API:
    [commit_info['commit']['author']['date']] and
    [commit_info['commit']['message']] *)
Record CommitInfo := mkCommitInfo {
  commit_date : string;
  commit_message : string
}.

Section CommitLogs.

(** [module.network.request_github_api], for the URL it is asked *)
Variable request_github_api : string -> World -> result (list CommitInfo).

(** the date a commit is listed under *)
Definition day_of (commit_info : CommitInfo) : string :=
  Text.before_first "T" (commit_date commit_info).

(** what the loop appends for the message of one commit *)
Definition render_message (msg : string) : result string :=
  match Text.splitlines msg with
  | first :: second :: more =>
      let content := Str.join (Text.nl +:+ Text.nl) (second :: more) in
      Ok ("<details><summary>" +:+ first +:+ "</summary>" +:+ Text.nl
          +:+ content +:+ Text.nl +:+ "</details>" +:+ Text.nl +:+ Text.nl)
  | [first] => Ok (" - " +:+ first +:+ Text.nl +:+ Text.nl)
  | [] => Raise (IndexError "list index out of range")
  end.

(** The [for commit_info in resp] loop of [get_yuzu_commit_logs];
    [last_date] and [markdown] are the locals. *)
Fixpoint commit_logs_loop (resp : list CommitInfo) (last_date markdown : string)
  : result string :=
  match resp with
  | [] => Ok markdown
  | commit_info :: rest =>
      let commit_date := day_of commit_info in
      let '(markdown, last_date) :=
        if negb (String.eqb last_date commit_date)
        then (markdown +:+ "## " +:+ commit_date +:+ Text.nl +:+ Text.nl, commit_date)
        else (markdown, last_date) in
      match render_message (commit_message commit_info) with
      | Ok entry => commit_logs_loop rest last_date (markdown +:+ entry)
      | Raise e => Raise e
      end
  end.

Definition commits_title : string :=
  "# Recent commits of yuzu-emu/yuzu" +:+ Text.nl +:+ Text.nl.

Definition get_yuzu_commit_logs : M string :=
  resp <- ask (request_github_api "https://api.github.com/repos/yuzu-emu/yuzu/commits") ;;
  of_result (commit_logs_loop resp "" commits_title).

End CommitLogs.

(** ** Vocabulary of the further statements *)





(** no title of the list is one the detector reads *)
Definition unrecognised (names : list string) : bool :=
  forallb (fun t => negb (recognised t)) names.

(** the enumerations [from], ..., [from + count - 1] show no title the
    detector reads *)
Definition quiet (E : Collab) (w : World) (from count : nat) : Prop :=
  forall n, from <= n < from + count ->
            exists names, get_all_window_name E n w = Ok names /\ unrecognised names = true.

(** every enumeration from [from] on, [count] of them, shows a recognised
    title that carries no version *)
Definition blank (E : Collab) (w : World) (from count : nat) : Prop :=
  forall n, from <= n < from + count ->
            exists names br, get_all_window_name E n w = Ok names
                             /\ first_title names = Some ("", br).


(** what the loop of [get_yuzu_commit_logs] appends for a message, the
    empty string where it raises *)
Definition entry_of (msg : string) : string :=
  match render_message msg with
  | Ok entry => entry
  | Raise _ => ""
  end.

(** the part of the document the loop adds for [resp], read after a commit
    of day [last_date] *)
Fixpoint body_of (resp : list CommitInfo) (last_date : string) : string :=
  match resp with
  | [] => ""
  | c :: rest =>
      (if String.eqb last_date (day_of c) then ""
       else "## " +:+ day_of c +:+ Text.nl +:+ Text.nl)
      +:+ entry_of (commit_message c) +:+ body_of rest (day_of c)
  end.

(** the file [open_yuzu_keys_folder] leaves in the keys folder *)
Definition keys_note : string := "把prod.keys放当前目录.txt".

Module DemoMore.

Definition commits : list CommitInfo :=
  [mkCommitInfo "2024-02-01T10:00:00Z" "Fix crash on boot";
   mkCommitInfo "2024-02-01T08:30:00Z" ("Merge pull request" +:+ Text.nl +:+ "audio: fix underrun");
   mkCommitInfo "2024-01-31T23:59:59Z" "Update translations"].

Definition api (resp : result (list CommitInfo)) : string -> World -> result (list CommitInfo) :=
  fun _ _ => resp.

(** the emulator never shows a window *)
Definition env_silent : Collab :=
  Demo.make (Ok Demo.release) None (fun _ => Ok ["Program Manager"]) (Ok Demo.ini).

(** the window appears at the third enumeration *)
Definition env_slow : Collab :=
  Demo.make (Ok Demo.release) None
            (fun n => if Nat.ltb n 2 then Ok ["Program Manager"]
                      else Ok ["Program Manager"; "yuzu Early Access 4176"])
            (Ok Demo.ini).

(** the window shows the prefix and no version *)
Definition env_blank : Collab :=
  Demo.make (Ok Demo.release) None (fun _ => Ok ["Eden | "]) (Ok Demo.ini).

(** a cemu.exe beside a yuzu.exe *)
Definition world_both : World :=
  mkWorld {[ ["D:"; "Yuzu"]; ["D:"; "Yuzu"; "yuzu.exe"]; ["D:"; "Yuzu"; "cemu.exe"] ]} []
          (Some "C:\Users\me\AppData\Roaming") ["D:"; "tools"] ["D:"; "tmp"].

Definition state_both (rename : bool) : State :=
  mkState (mkConfig (mkYuzuConfig "D:\Yuzu" (Some "1734") None (Some "ea"))
                    (mkSetting false rename))
          None ∅ [] world_both.

(** the user data lives in the roaming folder of Eden *)
Definition world_roaming : World :=
  mkWorld {[ ["D:"; "Yuzu"]; ["C:"; "Users"; "me"; "AppData"; "Roaming"; "eden"] ]} []
          (Some "C:\Users\me\AppData\Roaming") ["D:"; "tools"] ["D:"; "tmp"].

Definition state_roaming : State :=
  mkState (config Demo.state0) None ∅ [] world_roaming.


(** the runtime installer fails *)
Definition env_msvc_fails : Collab :=
  mkCollab (get_yuzu_release_info_by_version Demo.env) (get_github_download_url Demo.env)
           (download Demo.env) (uncompress Demo.env) (copytree Demo.env)
           (fun w => (Raise (ExternalError "msvc"), w))
           (install_firmware Demo.env)
           (get_all_window_name Demo.env) (read_ini Demo.env) (decode_yuzu_path Demo.env)
           (default_YuzuConfig Demo.env).

(** downloads are deleted after the install *)
Definition state_autodelete : State :=
  mkState (mkConfig (yuzu (config Demo.state0)) (mkSetting true false)) None ∅ [] Demo.world0.

End DemoMore.

(** * Lemmas and theorems *)

(** ** The operations on the sample inputs *)

Example path_of_string_ex :
  Path.of_string "D:\Yuzu/user/" = ["D:"; "Yuzu"; "user"].
Proof. reflexivity. Qed.

Example exe_path_ex :
  fst (get_yuzu_exe_path Demo.state0) = Ok ["D:"; "Yuzu"; "eden.exe"].
Proof. vm_compute. reflexivity. Qed.

Example install_ex :
  fst (install_yuzu Demo.env "v0.0.3" "eden" Demo.state0) = Ok tt
  /\ yuzu (config (snd (install_yuzu Demo.env "v0.0.3" "eden" Demo.state0)))
     = mkYuzuConfig "D:\Yuzu" (Some "v0.0.3") None (Some "eden").
Proof. vm_compute. split; reflexivity. Qed.

Example detect_ex :
  fst (detect_yuzu_version Demo.env Demo.state0) = Ok (Some "1.2.3").
Proof. vm_compute. reflexivity. Qed.

(** ** Running operations

    [mstep] unfolds the plumbing of the monad and of the primitive operations
    and simplifies; the operations of the module stay folded. *)

Lemma get_emu_name_run (st : State) :
  get_emu_name st = (Ok (emu_name_of (config st)), st).
Proof.
  unfold get_emu_name, emu_name_of, bind, get_config, ret.
  by destruct (bool_decide (branch (yuzu (config st)) = Some "eden")).
Qed.

Lemma bind_run {A B} (m : M A) (k : A -> M B) (st : State) :
  bind m k st
  = match m st with
    | (Ok a, st') => k a st'
    | (Raise e, st') => (Raise e, st')
    end.
Proof. reflexivity. Qed.

Ltac mstep :=
  repeat (progress (unfold bind, ret, raise, try_except, get_config, get_world, get_history,
                    set_config, set_world, set_history, set_yuzu, set_yuzu_version, set_branch,
                    set_yuzu_firmware, call, ask, of_result, exists_, send_notify,
                    dump_config; simpl));
  repeat (rewrite get_emu_name_run; simpl).

(** ** Executable path *)

Section ExePath.

Lemma joinpath_exe_name (p : path) (n : string) :
  n ∈ detect_exe_list -> Path.joinpath p n = p ++ [n].
Proof.
  unfold detect_exe_list. intros Hn.
  repeat (apply elem_of_cons in Hn as [-> | Hn]; [reflexivity |]).
  by apply elem_of_nil in Hn.
Qed.

Lemma first_existing_name (w : World) (yz : path) (names : list string) (p : path) :
  first_existing w yz names = Some p ->
  exists n, n ∈ names /\ p = Path.joinpath yz n.
Proof.
  induction names as [| n names IH]; simpl; [discriminate |].
  destruct (exists_in w (Path.joinpath yz n)).
  - intros [= <-]. exists n. split; [left | reflexivity].
  - intros H. destruct (IH H) as (m & Hm & ->). exists m. split; [by right | reflexivity].
Qed.

Lemma exe_path_of_name (c : Config) (w : World) :
  exists n, n ∈ detect_exe_list
            /\ exe_path_of c w = Path.of_string (yuzu_path (yuzu c)) ++ [n].
Proof.
  unfold exe_path_of.
  set (yz := Path.of_string (yuzu_path (yuzu c))).
  destruct ((rename_yuzu_to_cemu (setting c) || negb (exists_in w (Path.joinpath yz "yuzu.exe")))
            && exists_in w (Path.joinpath yz "cemu.exe")).
  - exists "cemu.exe". split; [set_solver | reflexivity].
  - destruct (first_existing w yz detect_exe_list) as [p |] eqn:Hf.
    + apply first_existing_name in Hf as (n & Hn & ->).
      exists n. split; [done | by apply joinpath_exe_name].
    + exists "yuzu.exe". split; [set_solver | reflexivity].
Qed.

(** C9.  Whatever the configured [yuzu_path] and whichever candidate
    executables exist, [get_yuzu_exe_path] returns, without raising and
    without changing anything, a path that has [Path(yuzu_path)] as a
    prefix: it is that path followed by one of the known executable
    names. *)
Theorem get_yuzu_exe_path_prefixed (st : State) :
  exists p n,
    get_yuzu_exe_path st = (Ok p, st)
    /\ n ∈ detect_exe_list
    /\ p = Path.of_string (yuzu_path (yuzu (config st))) ++ [n]
    /\ Path.of_string (yuzu_path (yuzu (config st))) `prefix_of` p.
Proof.
  destruct (exe_path_of_name (config st) (world st)) as (n & Hn & Hp).
  exists (exe_path_of (config st) (world st)), n.
  split; [reflexivity |]. split; [done |]. split; [done |].
  rewrite Hp. by apply prefix_app_r.
Qed.

End ExePath.

(** ** Asset selection *)

Section Assets.

Variable E : Collab.

Lemma select_url_first_matching (assets : list Asset) :
  select_url E assets = url_of E <$> first_matching_asset assets.
Proof.
  unfold first_matching_asset, url_of.
  induction assets as [| a assets IH]; simpl; [reflexivity |].
  unfold asset_matches.
  destruct (Str.endswith ".7z" (asset_name a)); [reflexivity |].
  destruct (Str.startswith "Windows-Yuzu-EA-" (asset_name a) && Str.endswith ".zip" (asset_name a));
    [reflexivity |].
  destruct (Str.startswith "Eden-Windows-" (asset_name a) && Str.endswith ".zip" (asset_name a));
    [reflexivity | exact IH].
Qed.

Lemma first_matching_skip (pre : list Asset) (a : Asset) (post : list Asset) :
  forallb (fun x => negb (asset_matches x)) pre = true ->
  asset_matches a = true ->
  first_matching_asset (pre ++ a :: post) = Some a.
Proof.
  unfold first_matching_asset.
  induction pre as [| x pre IH]; simpl; intros Hpre Ha.
  - by rewrite Ha.
  - apply andb_prop in Hpre as [Hx Hpre].
    apply negb_true_iff in Hx. rewrite Hx. by apply IH.
Qed.

Lemma first_matching_unique (assets : list Asset) (a : Asset) :
  In a assets ->
  asset_matches a = true ->
  (forall a', In a' assets -> asset_matches a' = true -> a' = a) ->
  first_matching_asset assets = Some a.
Proof.
  unfold first_matching_asset. intros Hin Ha Huniq.
  destruct (List.find asset_matches assets) as [b |] eqn:Hf.
  - apply List.find_some in Hf as [Hb Hm]. f_equal. by apply Huniq.
  - by rewrite (List.find_none _ _ Hf a Hin) in Ha.
Qed.

Lemma first_matching_none (assets : list Asset) :
  first_matching_asset assets = None <->
  forall a, In a assets -> asset_matches a = false.
Proof.
  unfold first_matching_asset. split.
  - apply List.find_none.
  - intros Hnone. destruct (List.find asset_matches assets) as [b |] eqn:Hf; [| reflexivity].
    apply List.find_some in Hf as [Hb Hm]. by rewrite (Hnone b Hb) in Hm.
Qed.

(** [download_yuzu] on the supported branch, for a release that has a tag *)
Lemma download_yuzu_eden (v : string) (st : State) (info : ReleaseInfo) :
  get_yuzu_release_info_by_version E v "eden" (world st) = Ok info ->
  Str.truthy_opt (tag_name info) = true ->
  fst (download_yuzu E v "eden" st)
  = match first_matching_asset (assets info) with
    | Some a =>
        if Str.truthy (url_of E a)
        then downloaded_file (fst (download E (url_of E a) (world st)))
        else Raise (IgnoredException "Fail to fetch yuzu download url.")
    | None => Raise (IgnoredException "Fail to fetch yuzu download url.")
    end.
Proof.
  intros Hinfo Htag.
  unfold download_yuzu. simpl. unfold bind at 1. rewrite get_emu_name_run.
  mstep. rewrite Hinfo; simpl. rewrite Htag; simpl. rewrite get_emu_name_run; simpl.
  rewrite select_url_first_matching.
  destruct (first_matching_asset (assets info)) as [a |]; simpl; [| reflexivity].
  destruct (url_of E a) as [| ch u]; simpl; [reflexivity |].
  destruct (download E (String ch u) (world st)) as [r w']; simpl.
  destruct r as [[| file fs] | e]; reflexivity.
Qed.

End Assets.

Section AssetsClaim.

Variable E : Collab.

(** C6 (amended).  On the supported branch and for a release with a tag,
    the loop of [download_yuzu] selects the first asset, in list order,
    whose name fits one of the three patterns, and goes on with
    [get_github_download_url] of its [download_url]; a list with exactly
    one fitting asset selects that asset, whatever else it holds.  The
    file is then downloaded from that URL when it is not empty;
    [IgnoredException('Fail to fetch yuzu download url.')] is raised when
    no asset fits or when that URL is empty. *)
Theorem asset_selection_first_match (v : string) (st : State) (info : ReleaseInfo) :
  get_yuzu_release_info_by_version E v "eden" (world st) = Ok info ->
  Str.truthy_opt (tag_name info) = true ->
  select_url E (assets info) = url_of E <$> first_matching_asset (assets info)
  /\ (forall pre a post,
        assets info = pre ++ a :: post ->
        forallb (fun x => negb (asset_matches x)) pre = true ->
        asset_matches a = true ->
        first_matching_asset (assets info) = Some a)
  /\ (forall a,
        In a (assets info) -> asset_matches a = true ->
        (forall a', In a' (assets info) -> asset_matches a' = true -> a' = a) ->
        first_matching_asset (assets info) = Some a)
  /\ (forall a,
        first_matching_asset (assets info) = Some a ->
        Str.truthy (url_of E a) = true ->
        fst (download_yuzu E v "eden" st)
        = downloaded_file (fst (download E (url_of E a) (world st))))
  /\ (forall a,
        first_matching_asset (assets info) = Some a ->
        url_of E a = "" ->
        fst (download_yuzu E v "eden" st)
        = Raise (IgnoredException "Fail to fetch yuzu download url."))
  /\ ((forall a, In a (assets info) -> asset_matches a = false) ->
      fst (download_yuzu E v "eden" st)
      = Raise (IgnoredException "Fail to fetch yuzu download url.")).
Proof.
  intros Hinfo Htag.
  pose proof (download_yuzu_eden E v st info Hinfo Htag) as Hrun.
  split; [apply select_url_first_matching |].
  split; [intros pre a post -> Hpre Ha; by apply first_matching_skip |].
  split; [intros a Hin Ha Huniq; by apply first_matching_unique |].
  split; [intros a Hf Hurl; by rewrite Hrun, Hf, Hurl |].
  split; [intros a Hf Hurl; by rewrite Hrun, Hf, Hurl |].
  intros Hnone. apply first_matching_none in Hnone. by rewrite Hrun, Hnone.
Qed.

End AssetsClaim.

(** C6, as stated, fails: the release below lists exactly one asset that
    fits a pattern; its download URL is the empty string, and
    [download_yuzu] raises the signal of "no asset fits" instead of going on
    with that asset's URL. *)
Lemma asset_selection_empty_url :
  In DemoAssets.lone (assets DemoAssets.info)
  /\ asset_matches DemoAssets.lone = true
  /\ (forall a, In a (assets DemoAssets.info) -> asset_matches a = true -> a = DemoAssets.lone)
  /\ get_yuzu_release_info_by_version DemoAssets.env "v0.0.3" "eden" (world Demo.state0)
     = Ok DemoAssets.info
  /\ fst (download_yuzu DemoAssets.env "v0.0.3" "eden" Demo.state0)
     = Raise (IgnoredException "Fail to fetch yuzu download url.").
Proof.
  split; [right; left; reflexivity |].
  split; [reflexivity |].
  split; [| split; reflexivity].
  intros a [<- | [<- | []]]; [discriminate | reflexivity].
Qed.

Lemma asset_selection_first_match_witness :
  select_url Demo.env (assets Demo.release)
  = Some "https://example.org/win"
  /\ fst (download_yuzu Demo.env "v0.0.3" "eden" Demo.state0) = Ok ["D:"; "tmp"; "eden.zip"].
Proof.
  destruct (asset_selection_first_match Demo.env "v0.0.3" Demo.state0 Demo.release
              eq_refl eq_refl) as (Hsel & Hfirst & _ & Hload & _).
  split.
  - rewrite Hsel.
    by rewrite (Hfirst [mkAsset "Eden-Source.tar.zst" "https://example.org/src"]
                  (mkAsset "Eden-Windows-v0.0.3.zip" "https://example.org/win")
                  [mkAsset "Eden-Linux.AppImage" "https://example.org/linux"]
                  eq_refl eq_refl eq_refl).
  - rewrite (Hload (mkAsset "Eden-Windows-v0.0.3.zip" "https://example.org/win")).
    + reflexivity.
    + apply (Hfirst [mkAsset "Eden-Source.tar.zst" "https://example.org/src"] _
               [mkAsset "Eden-Linux.AppImage" "https://example.org/linux"]); reflexivity.
    + reflexivity.
Defined.

(** ** Frames: what an operation leaves alone *)

Lemma only_notified_refl (st : State) : only_notified st st.
Proof. by repeat split. Qed.

Lemma only_notified_trans (st1 st2 st3 : State) :
  only_notified st1 st2 -> only_notified st2 st3 -> only_notified st1 st3.
Proof.
  intros (? & ? & ? & ?) (? & ? & ? & ?). repeat split; congruence.
Qed.

Lemma send_notify_frame (msg : string) (st : State) :
  only_notified st (snd (send_notify msg st)).
Proof. by repeat split. Qed.

Create HintDb yuzu.
#[local] Hint Resolve only_notified_refl send_notify_frame : yuzu.

(** ** Window titles *)

Section Windows.

Variable E : Collab.

Lemma scan_windows_run (names : list string) (version branch : option string) (st : State) :
  fst (scan_windows names version branch st)
  = Ok (locals_after (first_title names) version branch)
  /\ only_notified st (snd (scan_windows names version branch st)).
Proof.
  induction names as [| t names IH]; simpl; [by auto with yuzu |].
  unfold parse_title.
  destruct (Str.startswith "yuzu " t).
  - destruct (Str.startswith "yuzu Early Access " t); mstep; by auto with yuzu.
  - destruct (Str.startswith "Eden | " t); [mstep; by auto with yuzu | exact IH].
Qed.

Lemma first_title_skip (pre : list string) (rest : list string) :
  forallb (fun t => negb (recognised t)) pre = true ->
  first_title (pre ++ rest) = first_title rest.
Proof.
  induction pre as [| t pre IH]; simpl; [done |].
  intros H. apply andb_prop in H as [Ht Hpre].
  apply negb_true_iff, orb_false_iff in Ht as [Hy He].
  unfold parse_title. rewrite Hy, He. by apply IH.
Qed.

Lemma poll_windows_frame (remaining try_cnt : nat) (version branch : option string) (st : State) :
  only_notified st (snd (poll_windows E remaining try_cnt version branch st))
  /\ exists vb, fst (poll_windows E remaining try_cnt version branch st) = Ok vb.
Proof.
  revert try_cnt version branch st.
  induction remaining as [| n IH]; intros try_cnt version branch st; simpl.
  - split; [by auto with yuzu | by eexists].
  - destruct (Str.truthy_opt version); [split; [by auto with yuzu | by eexists] |].
    mstep. destruct (get_all_window_name E try_cnt (world st)) as [names | e];
      [| split; [by auto with yuzu | by eexists]].
    destruct (scan_windows_run names version branch st) as [Hr Hf].
    destruct (scan_windows names version branch st) as [r st1]; simpl in *. subst r.
    destruct (IH (S try_cnt) (fst (locals_after (first_title names) version branch))
                 (snd (locals_after (first_title names) version branch)) st1) as [Hf2 Hr2].
    split; [by eapply only_notified_trans | exact Hr2].
Qed.

(** a first enumeration that shows a recognised title with a non-empty
    version ends the polling with that version and branch *)
Lemma poll_windows_first_hit (n : nat) (names : list string) (ver br : string) (st : State) :
  get_all_window_name E 0 (world st) = Ok names ->
  first_title names = Some (ver, br) ->
  Str.truthy ver = true ->
  fst (poll_windows E (S (S n)) 0 None None st) = Ok (Some ver, Some br).
Proof.
  intros Hnames Hfirst Hver. simpl. mstep. rewrite Hnames.
  destruct (scan_windows_run names None None st) as [Hr _].
  destruct (scan_windows names None None st) as [r st1]; simpl in *. subst r.
  rewrite Hfirst. simpl. by rewrite Hver.
Qed.

End Windows.

(** ** Version detection *)

Arguments poll_windows : simpl never.
Arguments with_procs : simpl never.
Arguments with_files : simpl never.

Section Detect.

Variable E : Collab.

Ltac detect_start :=
  unfold detect_yuzu_version, get_yuzu_exe_path, find_all_instances, popen,
    kill_all_instances; mstep.

(** executable missing: nothing is raised, the version is cleared and
    persisted, the branch stays *)
Lemma detect_missing (st : State) :
  exists_in (world st) (exe_of st) = false ->
  fst (detect_yuzu_version E st) = Ok None
  /\ yuzu (config (snd (detect_yuzu_version E st)))
     = mkYuzuConfig (yuzu_path (yuzu (config st))) None
                    (yuzu_firmware (yuzu (config st))) (branch (yuzu (config st)))
  /\ setting (config (snd (detect_yuzu_version E st))) = setting (config st)
  /\ saved (snd (detect_yuzu_version E st)) = Some (config (snd (detect_yuzu_version E st)))
  /\ yuzu_history (snd (detect_yuzu_version E st)) = yuzu_history st
  /\ world (snd (detect_yuzu_version E st)) = world st.
Proof.
  unfold exe_of. intros Hmiss. detect_start. rewrite Hmiss. mstep. by repeat split.
Qed.

(** emulator already running: nothing is raised and nothing is written *)
Lemma detect_busy (st : State) :
  exists_in (world st) (exe_of st) = true ->
  busy st = true ->
  fst (detect_yuzu_version E st) = Ok None
  /\ only_notified st (snd (detect_yuzu_version E st)).
Proof.
  unfold busy, exe_of. intros Hex Hbusy. detect_start. rewrite Hex. mstep.
  destruct (filter _ (procs (world st))) as [| i l]; [discriminate |].
  mstep. by repeat split.
Qed.

(** otherwise the emulator is started, the windows are polled, the
    emulator is killed and the outcome is written *)
Lemma detect_polled (st : State) :
  exists_in (world st) (exe_of st) = true ->
  busy st = false ->
  exists vb st2,
    poll_windows E 30 0 None None (launched st) = (Ok vb, st2)
    /\ fst (detect_yuzu_version E st) = Ok (fst vb)
    /\ yuzu (config (snd (detect_yuzu_version E st)))
       = mkYuzuConfig (yuzu_path (yuzu (config st))) (fst vb)
           (yuzu_firmware (yuzu (config st)))
           (if Str.truthy_opt (fst vb) then snd vb else branch (yuzu (config st)))
    /\ setting (config (snd (detect_yuzu_version E st))) = setting (config st)
    /\ saved (snd (detect_yuzu_version E st)) = Some (config (snd (detect_yuzu_version E st)))
    /\ yuzu_history (snd (detect_yuzu_version E st)) = yuzu_history st.
Proof.
  unfold busy, exe_of. intros Hex Hbusy.
  destruct (poll_windows_frame E 30 0 None None (launched st)) as [Hframe [vb Hvb]].
  destruct (poll_windows E 30 0 None None (launched st)) as [r st2] eqn:Hpoll.
  simpl in Hvb, Hframe. subst r. exists vb, st2. split; [reflexivity |].
  destruct Hframe as (Hc & Hs & Hh & Hw). simpl in Hc, Hs, Hh, Hw.
  detect_start. rewrite Hex. mstep.
  destruct (filter _ (procs (world st))) as [| i l]; [| discriminate].
  mstep. unfold launched, launched_world, exe_of in Hpoll. rewrite Hpoll. mstep.
  destruct (Str.truthy_opt (fst vb)); mstep; rewrite ?Hc, ?Hh; by repeat split.
Qed.

End Detect.

Section DetectClaim.

Variable E : Collab.

(** C5 (amended).  When the executable exists, no instance of it runs and
    the first enumeration of the windows shows ["Eden | 1.2.3"] (or
    ["yuzu Early Access 1234"], or ["yuzu 1234"]) as its first title that
    starts with ["yuzu "] or ["Eden | "], the detector returns version
    ["1.2.3"] (["1234"], ["1234"]) and stores it with branch ["eden"]
    (["ea"], ["mainline"]); the version is the title from offset 7 (18,
    5). *)
Theorem detect_first_recognised_title
    (st : State) (pre post : list string) (t ver br : string) :
  (t, ver, br) ∈ sample_titles ->
  exists_in (world st) (exe_of st) = true ->
  busy st = false ->
  get_all_window_name E 0 (launched_world st) = Ok (pre ++ t :: post) ->
  forallb (fun w => negb (recognised w)) pre = true ->
  parse_title t = Some (ver, br)
  /\ fst (detect_yuzu_version E st) = Ok (Some ver)
  /\ yuzu_version (yuzu (config (snd (detect_yuzu_version E st)))) = Some ver
  /\ branch (yuzu (config (snd (detect_yuzu_version E st)))) = Some br.
Proof.
  intros Hsample Hex Hbusy Hnames Hpre.
  assert (Hparse : parse_title t = Some (ver, br) /\ Str.truthy ver = true).
  { unfold sample_titles in Hsample.
    repeat (apply elem_of_cons in Hsample as [[= -> -> ->] | Hsample];
            [split; reflexivity |]).
    by apply elem_of_nil in Hsample. }
  destruct Hparse as [Hparse Hver]. split; [exact Hparse |].
  destruct (detect_polled E st Hex Hbusy) as (vb & st2 & Hpoll & Hr & Hy & _).
  assert (Hvb : vb = (Some ver, Some br)).
  { pose proof (poll_windows_first_hit E 28 (pre ++ t :: post) ver br (launched st)) as Hhit.
    rewrite Hpoll in Hhit. simpl in Hhit.
    assert (Ok vb = Ok (Some ver, Some br)) as [= ->]; [| reflexivity].
    apply Hhit; [exact Hnames | | exact Hver].
    rewrite first_title_skip by exact Hpre. simpl. by rewrite Hparse. }
  subst vb. simpl in Hr, Hy. rewrite Hr, Hy. simpl. by rewrite Hver.
Qed.

End DetectClaim.

(** C5, as stated, fails: the list below contains ["Eden | 1.2.3"], and the
    detector extracts version ["1234"] and branch ["mainline"] from the
    title before it. *)
Lemma detect_title_list_order :
  In "Eden | 1.2.3" DemoWindows.titles
  /\ get_all_window_name DemoWindows.env 0 (launched_world Demo.state0) = Ok DemoWindows.titles
  /\ fst (detect_yuzu_version DemoWindows.env Demo.state0) = Ok (Some "1234")
  /\ branch (yuzu (config (snd (detect_yuzu_version DemoWindows.env Demo.state0))))
     = Some "mainline".
Proof.
  split; [right; right; left; reflexivity |].
  vm_compute. by repeat split.
Qed.

Lemma detect_first_recognised_title_witness :
  get_all_window_name Demo.env 0 (launched_world Demo.state0)
  = Ok (["Program Manager"] ++ "Eden | 1.2.3" :: ["Settings"])
  /\ fst (detect_yuzu_version Demo.env Demo.state0) = Ok (Some "1.2.3")
  /\ branch (yuzu (config (snd (detect_yuzu_version Demo.env Demo.state0)))) = Some "eden".
Proof.
  split; [reflexivity |].
  destruct (detect_first_recognised_title Demo.env Demo.state0
              ["Program Manager"] ["Settings"] "Eden | 1.2.3" "1.2.3" "eden")
    as (_ & Hr & _ & Hb).
  - unfold sample_titles. left.
  - vm_compute. reflexivity.
  - vm_compute. reflexivity.
  - reflexivity.
  - reflexivity.
  - split; assumption.
Defined.

(** ** Installation *)

Section Install.

Variable E : Collab.

Lemma download_yuzu_other_branch (v b : string) (st : State) :
  b <> "eden" -> download_yuzu E v b st = (Raise unsupported, st).
Proof.
  intros Hb. unfold download_yuzu.
  apply String.eqb_neq in Hb. by rewrite Hb.
Qed.

(** the short-circuit of [install_yuzu] *)
Lemma install_yuzu_same_version (v b : string) (st : State) :
  yuzu_version (yuzu (config st)) = Some v ->
  fst (install_yuzu E v b st) = Ok tt
  /\ only_notified st (snd (install_yuzu E v b st)).
Proof.
  intros Hv. unfold install_yuzu. mstep.
  rewrite bool_decide_eq_true_2 by done. mstep. by repeat split.
Qed.

Lemma install_yuzu_other_branch (v b : string) (st : State) :
  yuzu_version (yuzu (config st)) <> Some v ->
  b <> "eden" ->
  fst (install_yuzu E v b st) = Raise unsupported
  /\ only_notified st (snd (install_yuzu E v b st)).
Proof.
  intros Hv Hb. unfold install_yuzu. mstep.
  rewrite bool_decide_eq_false_2 by done.
  apply String.eqb_neq in Hb. rewrite Hb. mstep. by repeat split.
Qed.

(** C1 (amended).  For a branch other than ['eden'] and every version
    string, [download_yuzu] raises the unsupported-branch exception, and so
    does [install_yuzu] for every version other than the recorded one; for
    the recorded version [install_yuzu] returns without raising. *)
Theorem unsupported_branch_signal (v b : string) (st : State) :
  b <> "eden" ->
  fst (download_yuzu E v b st) = Raise unsupported
  /\ (yuzu_version (yuzu (config st)) <> Some v ->
      fst (install_yuzu E v b st) = Raise unsupported)
  /\ (yuzu_version (yuzu (config st)) = Some v ->
      fst (install_yuzu E v b st) = Ok tt).
Proof.
  intros Hb. split; [by rewrite download_yuzu_other_branch |].
  split; intros Hv.
  - by apply install_yuzu_other_branch.
  - by apply install_yuzu_same_version.
Qed.

(** C4.  When the requested version is the recorded one, [install_yuzu]
    returns without installing: the configuration in memory and on disk,
    the history and the whole world, the file system included, are as
    before; a notification is all it sends. *)
Theorem install_same_version_noop (v b : string) (st : State) :
  yuzu_version (yuzu (config st)) = Some v ->
  fst (install_yuzu E v b st) = Ok tt
  /\ config (snd (install_yuzu E v b st)) = config st
  /\ saved (snd (install_yuzu E v b st)) = saved st
  /\ yuzu_history (snd (install_yuzu E v b st)) = yuzu_history st
  /\ world (snd (install_yuzu E v b st)) = world st
  /\ files (world (snd (install_yuzu E v b st))) = files (world st).
Proof.
  intros Hv. destruct (install_yuzu_same_version v b st Hv) as (Hr & Hc & Hs & Hh & Hw).
  repeat split; try done. by rewrite Hw.
Qed.

End Install.

(** C1, as stated, fails for [install_yuzu]: with version ["v0.0.2"]
    recorded, installing ["v0.0.2"] on branch ["ea"] returns normally. *)
Lemma install_other_branch_same_version_returns :
  "ea" <> "eden"
  /\ yuzu_version (yuzu (config Demo.state0)) = Some "v0.0.2"
  /\ fst (install_yuzu Demo.env "v0.0.2" "ea" Demo.state0) = Ok tt.
Proof. by repeat split. Qed.

Lemma unsupported_branch_signal_witness :
  "mainline" <> "eden"
  /\ fst (download_yuzu Demo.env "1734" "mainline" Demo.state0) = Raise unsupported
  /\ fst (install_yuzu Demo.env "1734" "mainline" Demo.state0) = Raise unsupported.
Proof.
  assert (Hb : "mainline" <> "eden") by discriminate.
  destruct (unsupported_branch_signal Demo.env "1734" "mainline" Demo.state0 Hb)
    as (Hd & Hi & _).
  split; [exact Hb |]. split; [exact Hd |]. apply Hi. simpl. discriminate.
Defined.

Lemma install_same_version_noop_witness :
  yuzu_version (yuzu (config Demo.state0)) = Some "v0.0.2"
  /\ fst (install_yuzu Demo.env "v0.0.2" "eden" Demo.state0) = Ok tt
  /\ config (snd (install_yuzu Demo.env "v0.0.2" "eden" Demo.state0)) = config Demo.state0
  /\ files (world (snd (install_yuzu Demo.env "v0.0.2" "eden" Demo.state0)))
     = files (world Demo.state0).
Proof.
  split; [reflexivity |].
  destruct (install_same_version_noop Demo.env "v0.0.2" "eden" Demo.state0 eq_refl)
    as (Hr & Hc & _ & _ & _ & Hf).
  by repeat split.
Defined.

(** ** NAND and load paths *)

Section DataPaths.

Variable E : Collab.

Lemma get_yuzu_user_path_frame (st : State) :
  snd (get_yuzu_user_path st) = st.
Proof.
  unfold get_yuzu_user_path, environ_appdata. mstep.
  destruct (exists_in (world st) _); [reflexivity |].
  destruct (appdata (world st)) as [a |] eqn:Ha; mstep; [| reflexivity].
  destruct (exists_in (world st) _); mstep; rewrite ?Ha; [reflexivity |].
  mstep. by destruct (exists_in (world st) _); mstep; rewrite ?Ha.
Qed.

Lemma data_storage_config_frame (user_path : path) (st : State) :
  snd (_get_yuzu_data_storage_config E user_path st) = st.
Proof.
  unfold _get_yuzu_data_storage_config. mstep.
  destruct (exists_in (world st) _); [| reflexivity]. mstep.
  destruct (read_ini E _ (world st)) as [secs | e]; [| reflexivity].
  by destruct (secs !! "Data%20Storage").
Qed.

Lemma get_yuzu_nand_path_run (st : State) (user_path : path) :
  fst (get_yuzu_user_path st) = Ok user_path ->
  get_yuzu_nand_path E st
  = (Ok (nand_from E user_path (fst (_get_yuzu_data_storage_config E user_path st))), st).
Proof.
  intros Hup. unfold get_yuzu_nand_path, nand_from.
  unfold bind at 1. pose proof (get_yuzu_user_path_frame st) as Hst.
  destruct (get_yuzu_user_path st) as [r st1]. simpl in Hup, Hst. subst r st1.
  unfold try_except, bind.
  pose proof (data_storage_config_frame user_path st) as Hst.
  destruct (_get_yuzu_data_storage_config E user_path st) as [r st1]. simpl in Hst. subst st1.
  destruct r as [ds | e]; simpl; [| reflexivity].
  destruct (section_truthy ds) as [sec |]; [| reflexivity]. mstep.
  by destruct (decode_yuzu_path E (sec !! "nand_directory")).
Qed.





(** The condition on the decoder is needed: were [decode_yuzu_path] to
    answer [None] with a string, the NAND path would be that string. *)
Lemma nand_keys_absent_decoder_answers
    (st : State) (user_path : path) (sec : Section_) (decoded : string) :
  fst (get_yuzu_user_path st) = Ok user_path ->
  fst (_get_yuzu_data_storage_config E user_path st) = Ok (Some sec) ->
  sec <> ∅ ->
  sec !! "nand_directory" = None ->
  decode_yuzu_path E None = Ok decoded ->
  fst (get_yuzu_nand_path E st) = Ok (Path.of_string decoded).
Proof.
  intros Hup Hds Hne Hkey Hdec.
  rewrite (get_yuzu_nand_path_run st user_path Hup), Hds. unfold nand_from, fst, section_truthy.
  rewrite bool_decide_eq_false_2 by exact Hne. by rewrite Hkey, Hdec.
Qed.

End DataPaths.



Example parse_failure_swallowed :
  get_yuzu_nand_path DemoPaths.env_broken Demo.state_qt
  = (Ok ["D:"; "Yuzu"; "user"; "nand"], Demo.state_qt).
Proof. vm_compute. reflexivity. Qed.

(** ** Changing the install path *)

Section UpdatePath.

Variable E : Collab.

Lemma self_in_parents (p : path) :
  p <> [] -> p ∈ (list_to_set (parents_and_self p) : gset path).
Proof.
  intros Hp. apply elem_of_list_to_set. unfold parents_and_self.
  apply list_elem_of_fmap. exists (length p). split.
  - by rewrite firstn_all.
  - apply elem_of_seq. destruct p; [done | simpl; lia].
Qed.




End UpdatePath.


(** ** Operations that leave the configuration alone *)

Section Preserves.

Context {A B : Type}.

Lemma keeps_config_refl (st : State) : keeps_config st st.
Proof. by repeat split. Qed.

Lemma keeps_config_trans (st1 st2 st3 : State) :
  keeps_config st1 st2 -> keeps_config st2 st3 -> keeps_config st1 st3.
Proof. intros (? & ? & ?) (? & ? & ?). repeat split; congruence. Qed.

Lemma preserves_ret (a : A) : preserves (ret a).
Proof. intros st. apply keeps_config_refl. Qed.

Lemma preserves_raise (e : exn) : preserves (@raise A e).
Proof. intros st. apply keeps_config_refl. Qed.

Lemma preserves_bind (m : M A) (k : A -> M B) :
  preserves m -> (forall a, preserves (k a)) -> preserves (bind m k).
Proof.
  intros Hm Hk st. unfold bind. specialize (Hm st).
  destruct (m st) as [[a | e] st1]; simpl in *; [| exact Hm].
  eapply keeps_config_trans; [exact Hm | apply Hk].
Qed.

Lemma preserves_try_except (m : M A) (h : exn -> M A) :
  preserves m -> (forall e, preserves (h e)) -> preserves (try_except m h).
Proof.
  intros Hm Hh st. unfold try_except. specialize (Hm st).
  destruct (m st) as [[a | e] st1]; simpl in *; [exact Hm |].
  eapply keeps_config_trans; [exact Hm | apply Hh].
Qed.

Lemma preserves_call (f : World -> result A * World) : preserves (call f).
Proof. intros st. unfold call. by destruct (f (world st)). Qed.

Lemma preserves_ask (f : World -> result A) : preserves (ask f).
Proof. intros st. apply keeps_config_refl. Qed.

Lemma preserves_of_result (r : result A) : preserves (of_result r).
Proof. intros st. apply keeps_config_refl. Qed.

End Preserves.

Lemma preserves_get_config : preserves get_config.
Proof. intros st. apply keeps_config_refl. Qed.

Lemma preserves_get_world : preserves get_world.
Proof. intros st. apply keeps_config_refl. Qed.

Lemma preserves_set_world (w : World) : preserves (set_world w).
Proof. intros st. by repeat split. Qed.

Lemma preserves_send_notify (msg : string) : preserves (send_notify msg).
Proof. intros st. by repeat split. Qed.

Lemma preserves_get_emu_name : preserves get_emu_name.
Proof. intros st. rewrite get_emu_name_run. apply keeps_config_refl. Qed.

Create HintDb frame.
#[local] Hint Resolve preserves_ret preserves_raise preserves_call preserves_ask
  preserves_of_result preserves_get_config preserves_get_world preserves_set_world
  preserves_send_notify preserves_get_emu_name : frame.

(** [frame] proves [preserves m] for a composition of such operations. *)
Ltac frame :=
  repeat first
    [ progress auto with frame
    | apply preserves_bind; [| intros ? ]
    | apply preserves_try_except; [| intros ? ]
    | match goal with
      | |- preserves (if ?b then _ else _) => destruct b
      | |- preserves (match ?x with _ => _ end) => destruct x
      end ].

Section PreservesOps.

Variable E : Collab.

Lemma preserves_exists (p : path) : preserves (exists_ p).
Proof. unfold exists_. frame. Qed.

Lemma preserves_mkdir_parents (p : path) : preserves (mkdir_parents p).
Proof. unfold mkdir_parents. frame. Qed.

Lemma preserves_os_remove (p : path) : preserves (os_remove p).
Proof. unfold os_remove. frame. Qed.

Lemma preserves_rmtree (p : path) : preserves (rmtree p).
Proof. unfold rmtree. frame. Qed.

Lemma preserves_os_replace (src dst : path) : preserves (os_replace src dst).
Proof. unfold os_replace. frame. Qed.

Lemma preserves_popen (p : path) : preserves (popen p).
Proof. unfold popen. frame. Qed.

Lemma preserves_environ_appdata : preserves environ_appdata.
Proof. unfold environ_appdata. frame. Qed.

Hint Resolve preserves_exists preserves_mkdir_parents preserves_os_remove preserves_rmtree
  preserves_os_replace preserves_popen preserves_environ_appdata : frame.

Lemma preserves_get_yuzu_exe_path : preserves get_yuzu_exe_path.
Proof. unfold get_yuzu_exe_path. frame. Qed.

Lemma preserves_download_yuzu (v b : string) : preserves (download_yuzu E v b).
Proof. unfold download_yuzu. frame. Qed.

Lemma preserves_unzip_yuzu (pkg : path) (dir : option path) : preserves (unzip_yuzu E pkg dir).
Proof. unfold unzip_yuzu. frame. Qed.

Lemma preserves_copy_back_yuzu_files (tmp_dir dst : path) :
  preserves (copy_back_yuzu_files E tmp_dir dst).
Proof. unfold copy_back_yuzu_files. frame. Qed.

Hint Resolve preserves_get_yuzu_exe_path preserves_download_yuzu preserves_unzip_yuzu
  preserves_copy_back_yuzu_files : frame.

Lemma preserves_install_eden (v : string) : preserves (install_eden E v).
Proof. unfold install_eden. frame. Qed.

Lemma preserves_start_yuzu : preserves start_yuzu.
Proof. unfold start_yuzu. frame. Qed.

Lemma preserves_get_yuzu_user_path : preserves get_yuzu_user_path.
Proof. unfold get_yuzu_user_path. frame. Qed.

Lemma preserves_data_storage_config (up : path) :
  preserves (_get_yuzu_data_storage_config E up).
Proof. unfold _get_yuzu_data_storage_config. frame. Qed.

Hint Resolve preserves_get_yuzu_user_path preserves_data_storage_config : frame.

Lemma preserves_get_yuzu_nand_path : preserves (get_yuzu_nand_path E).
Proof. unfold get_yuzu_nand_path. frame. Qed.

Lemma preserves_get_yuzu_load_path : preserves (get_yuzu_load_path E).
Proof. unfold get_yuzu_load_path. frame. Qed.

End PreservesOps.

(** ** Version and branch *)

Section VersionBranch.

Variable E : Collab.

Lemma consistent_keeps (st st' : State) :
  keeps_config st st' -> consistent E st -> consistent E st'.
Proof.
  intros (Hc & _ & Hh) (H1 & H2 & H3). unfold consistent. by rewrite Hc, Hh.
Qed.

(** *** install *)

(** what [install_yuzu] does to the configuration when it does not skip:
    it is as before, or it records the target version and the branch; it
    records them whenever the install returns *)
Lemma install_yuzu_config (v b : string) (st : State) (r : result unit) (st' : State) :
  yuzu_version (yuzu (config st)) <> Some v ->
  install_yuzu E v b st = (r, st') ->
  yuzu_history st' = yuzu_history st
  /\ (config st' = config st
      \/ (b = "eden"
          /\ config st' = mkConfig (mkYuzuConfig (yuzu_path (yuzu (config st))) (Some v)
                                      (yuzu_firmware (yuzu (config st))) (Some b))
                                   (setting (config st))))
  /\ (r = Ok tt ->
      yuzu_version (yuzu (config st')) = Some v /\ branch (yuzu (config st')) = Some b
      /\ b = "eden" /\ saved st' = Some (config st')).
Proof.
  intros Hv. unfold install_yuzu. unfold bind at 1. unfold get_config at 1.
  rewrite bool_decide_eq_false_2 by done.
  destruct (String.eqb b "eden") eqn:Hb; cbn [negb].
  2:{ mstep. intros [= <- <-]. simpl. split; [reflexivity |]. split; [by left | discriminate]. }
  apply String.eqb_eq in Hb. subst b.
  rewrite (bind_run (install_eden E v)).
  pose proof (preserves_install_eden E v st) as (Hc1 & Hs1 & Hh1).
  destruct (install_eden E v st) as [[[] | e] st1]; simpl in Hc1, Hs1, Hh1; simpl;
    [| intros [= <- <-]; split; [done |]; split; [by left | discriminate]].
  unfold mkdir_parents, get_yuzu_exe_path, os_replace. mstep.
  set (w1 := with_files (world st1) _).
  destruct (rename_yuzu_to_cemu (setting (config st1))
            && exists_in w1 (exe_path_of (config st1) w1)) eqn:Hren; mstep.
  - destruct (exists_in w1 (exe_path_of (config st1) w1)); mstep.
    + destruct (check_and_install_msvc E _) as [[[] | e] w2]; mstep;
        intros [= <- <-]; simpl; rewrite Hh1, Hc1;
        (split; [done |]); (split; [by right |]); [done | discriminate].
    + intros [= <- <-]; simpl. rewrite Hh1, Hc1. split; [done |].
      split; [by left | discriminate].
  - destruct (check_and_install_msvc E _) as [[[] | e] w2]; mstep;
      intros [= <- <-]; simpl; rewrite Hh1, Hc1;
      (split; [done |]); (split; [by right |]); [done | discriminate].
Qed.

Lemma install_yuzu_consistent (v b : string) (st : State) :
  consistent E st -> consistent E (snd (install_yuzu E v b st)).
Proof.
  intros Hst.
  destruct (decide (yuzu_version (yuzu (config st)) = Some v)) as [Hv | Hv].
  - destruct (install_yuzu_same_version E v b st Hv) as (_ & Hc & Hs & Hh & _).
    by apply (consistent_keeps st).
  - destruct (install_yuzu E v b st) as [r st'] eqn:Hrun.
    destruct (install_yuzu_config v b st r st' Hv Hrun) as (Hh & Hc & _).
    destruct Hst as (H1 & H2 & H3). unfold consistent. simpl. rewrite Hh.
    split; [| by split].
    destruct Hc as [-> | [-> ->]]; [done |]. by intros _.
Qed.

(** *** detection *)

Lemma parse_title_branch (t ver br : string) :
  parse_title t = Some (ver, br) -> is_set (Some br) = true.
Proof.
  unfold parse_title.
  destruct (Str.startswith "yuzu " t).
  - destruct (Str.startswith "yuzu Early Access " t); by intros [= <- <-].
  - destruct (Str.startswith "Eden | " t); [by intros [= <- <-] | discriminate].
Qed.

Lemma first_title_branch (names : list string) (ver br : string) :
  first_title names = Some (ver, br) -> is_set (Some br) = true.
Proof.
  induction names as [| t names IH]; simpl; [discriminate |].
  destruct (parse_title t) as [[v' b'] |] eqn:Hp; [| exact IH].
  intros [= <- <-]. by eapply parse_title_branch.
Qed.

Lemma poll_windows_locals (remaining try_cnt : nat) (version branch : option string)
      (st : State) (vb : option string * option string) :
  locals_ok (version, branch) ->
  fst (poll_windows E remaining try_cnt version branch st) = Ok vb ->
  locals_ok vb.
Proof.
  revert try_cnt version branch st.
  induction remaining as [| n IH]; intros try_cnt version branch st Hok;
    unfold poll_windows; fold poll_windows.
  - by intros [= <-].
  - destruct (Str.truthy_opt version); [by intros [= <-] |].
    mstep. destruct (get_all_window_name E try_cnt (world st)) as [names | e];
      [| by intros [= <-]].
    destruct (scan_windows_run names version branch st) as [Hr _].
    destruct (scan_windows names version branch st) as [r st1]; simpl in Hr. subst r.
    apply IH. destruct (first_title names) as [[ver br] |] eqn:Hf; simpl; [| exact Hok].
    right. by eapply first_title_branch.
Qed.

Lemma detect_consistent (st : State) :
  consistent E st -> consistent E (snd (detect_yuzu_version E st)).
Proof.
  intros Hst.
  destruct (exists_in (world st) (exe_of st)) eqn:Hex.
  - destruct (busy st) eqn:Hbusy.
    + destruct (detect_busy E st Hex Hbusy) as (_ & Hc & Hs & Hh & _).
      by apply (consistent_keeps st).
    + destruct (detect_polled E st Hex Hbusy) as (vb & st2 & Hpoll & _ & Hy & _ & _ & Hh).
      assert (Hl : locals_ok vb).
      { apply (poll_windows_locals 30 0 None None (launched st)); [by left |].
        by rewrite Hpoll. }
      destruct Hst as (H1 & H2 & H3). unfold consistent. rewrite Hh, Hy.
      split; [| by split]. unfold version_has_branch, is_set. simpl. intros Hv.
      rewrite Hv. destruct Hl as [Hl | Hl]; [by rewrite Hl in Hv | exact Hl].
  - destruct (detect_missing E st Hex) as (_ & Hy & _ & _ & Hh & _).
    destruct Hst as (H1 & H2 & H3). unfold consistent. rewrite Hh, Hy.
    split; [| by split]. by intros Hv.
Qed.

(** *** firmware *)

Lemma install_firmware_config (fv : option string) (st : State) :
  yuzu_version (yuzu (config (snd (install_firmware_to_yuzu E fv st))))
  = yuzu_version (yuzu (config st))
  /\ branch (yuzu (config (snd (install_firmware_to_yuzu E fv st))))
     = branch (yuzu (config st))
  /\ yuzu_history (snd (install_firmware_to_yuzu E fv st)) = yuzu_history st.
Proof.
  destruct (install_firmware_to_yuzu E fv st) as [r st'] eqn:Hrun. simpl.
  revert Hrun. unfold install_firmware_to_yuzu. rewrite bind_run. unfold get_config at 1.
  case_bool_decide; [mstep; by intros [= <- <-] |].
  rewrite bind_run.
  pose proof (preserves_get_yuzu_nand_path E st) as (Hc1 & _ & Hh1).
  destruct (get_yuzu_nand_path E st) as [[nand | e] st1]; simpl in Hc1, Hh1;
    [| intros [= <- <-]; by rewrite Hc1, Hh1].
  mstep. destruct (install_firmware E fv _ (world st1)) as [[new_version | e] w2];
    [| intros [= <- <-]; simpl; by rewrite Hc1, Hh1].
  destruct (Str.truthy_opt new_version); mstep; intros [= <- <-]; simpl;
    by rewrite Hc1, Hh1.
Qed.

Lemma install_firmware_consistent (fv : option string) (st : State) :
  consistent E st -> consistent E (snd (install_firmware_to_yuzu E fv st)).
Proof.
  intros (H1 & H2 & H3). destruct (install_firmware_config fv st) as (Hv & Hb & Hh).
  unfold consistent, version_has_branch. rewrite Hv, Hb, Hh. by repeat split.
Qed.

(** *** path change *)

Lemma update_yuzu_path_consistent (new_yuzu_path : string) (st : State) :
  consistent E st -> consistent E (snd (update_yuzu_path E new_yuzu_path st)).
Proof.
  intros (H1 & H2 & H3). unfold consistent.
  unfold update_yuzu_path, mkdir_parents, add_yuzu_history. mstep.
  set (w1 := if negb (exists_in (world st) (Path.of_string new_yuzu_path))
             then _ else _).
  assert (Hins : forall (h : gmap string YuzuConfig) k0 y0,
             (forall k y, h !! k = Some y -> version_has_branch y) ->
             version_has_branch y0 ->
             forall k y, <[k0 := y0]> h !! k = Some y -> version_has_branch y).
  { intros h k0 y0 Hh Hy0 k y. rewrite lookup_insert. case_decide; [by intros [= <-] | apply Hh]. }
  destruct (negb (exists_in (world st) (Path.of_string new_yuzu_path))); mstep.
  all: destruct (Path.same _ _); mstep; [by repeat split |].
  all: set (h1 := <[_ := yuzu (config st)]> (yuzu_history st)).
  all: assert (Hh1 : forall k y, h1 !! k = Some y -> version_has_branch y)
         by (by apply Hins).
  all: set (key := Path.to_string (Path.absolute _ (Path.of_string new_yuzu_path))).
  all: assert (Hcfg : version_has_branch (default (default_YuzuConfig E) (h1 !! key)))
         by (destruct (h1 !! key) as [y |] eqn:Hk; [by eapply Hh1 | exact H3]).
  all: case_bool_decide; mstep; case_bool_decide; mstep.
  all: split; [exact Hcfg |]; split; [| exact H3].
  all: repeat apply Hins; done.
Qed.

End VersionBranch.

Section VersionBranchClaim.

Variable E : Collab.

Lemma detect_outcome (st : State) :
  (forall ver,
      fst (detect_yuzu_version E st) = Ok (Some ver) ->
      Str.truthy ver = true ->
      yuzu_version (yuzu (config (snd (detect_yuzu_version E st)))) = Some ver
      /\ is_set (branch (yuzu (config (snd (detect_yuzu_version E st))))) = true)
  /\ (fst (detect_yuzu_version E st) = Ok None ->
      branch (yuzu (config (snd (detect_yuzu_version E st)))) = branch (yuzu (config st))).
Proof.
  destruct (exists_in (world st) (exe_of st)) eqn:Hex.
  - destruct (busy st) eqn:Hbusy.
    + destruct (detect_busy E st Hex Hbusy) as (Hr & Hc & _).
      rewrite Hr, Hc. split; [discriminate | done].
    + destruct (detect_polled E st Hex Hbusy) as (vb & st2 & Hpoll & Hr & Hy & _).
      assert (Hl : locals_ok vb).
      { apply (poll_windows_locals E 30 0 None None (launched st)); [by left |].
        by rewrite Hpoll. }
      rewrite Hr, Hy. simpl. split.
      * intros ver [= Hv] Hver. rewrite Hv. simpl. rewrite Hver. split; [done |].
        destruct Hl as [Hl | Hl]; [by rewrite Hl in Hv | exact Hl].
      * by intros [= ->].
  - destruct (detect_missing E st Hex) as (Hr & Hy & _).
    rewrite Hr, Hy. split; [discriminate | done].
Qed.

(** C2 (amended).  Install, version detection, firmware install and path
    update keep this: a recorded [yuzu_version] comes with a recorded
    [branch] (in the configuration and in every history entry, given a
    fresh [YuzuConfig()] has it).  An install that returns for a version
    other than the recorded one, and a detection that returns a version,
    leave both fields set; firmware install changes neither.  A detection
    that returns no version leaves [branch] as it was. *)
Theorem version_has_branch_after_writes
    (st : State) (v b new_yuzu_path : string) (fv : option string) :
  consistent E st ->
  consistent E (snd (install_yuzu E v b st))
  /\ consistent E (snd (detect_yuzu_version E st))
  /\ consistent E (snd (install_firmware_to_yuzu E fv st))
  /\ consistent E (snd (update_yuzu_path E new_yuzu_path st))
  /\ (yuzu_version (yuzu (config st)) <> Some v ->
      fst (install_yuzu E v b st) = Ok tt ->
      yuzu_version (yuzu (config (snd (install_yuzu E v b st)))) = Some v
      /\ branch (yuzu (config (snd (install_yuzu E v b st)))) = Some b)
  /\ (forall ver,
        fst (detect_yuzu_version E st) = Ok (Some ver) ->
        Str.truthy ver = true ->
        yuzu_version (yuzu (config (snd (detect_yuzu_version E st)))) = Some ver
        /\ is_set (branch (yuzu (config (snd (detect_yuzu_version E st))))) = true)
  /\ (fst (detect_yuzu_version E st) = Ok None ->
      branch (yuzu (config (snd (detect_yuzu_version E st)))) = branch (yuzu (config st)))
  /\ (yuzu_version (yuzu (config (snd (install_firmware_to_yuzu E fv st))))
      = yuzu_version (yuzu (config st))
      /\ branch (yuzu (config (snd (install_firmware_to_yuzu E fv st))))
         = branch (yuzu (config st))).
Proof.
  intros Hst.
  split; [by apply install_yuzu_consistent |].
  split; [by apply detect_consistent |].
  split; [by apply install_firmware_consistent |].
  split; [by apply update_yuzu_path_consistent |].
  split.
  { intros Hv Hr. destruct (install_yuzu E v b st) as [r st'] eqn:Hrun.
    simpl in Hr |- *.
    destruct (install_yuzu_config E v b st r st' Hv Hrun) as (_ & _ & Hok).
    destruct (Hok Hr) as (? & ? & _). by split. }
  destruct (detect_outcome st) as [Hfound Hnone].
  split; [exact Hfound |]. split; [exact Hnone |].
  destruct (install_firmware_config E fv st) as (? & ? & _). by split.
Qed.

End VersionBranchClaim.

(** C2, as stated, fails: version and branch are both recorded, the
    executable is gone, and detection clears the version and keeps the
    branch. *)
Lemma detect_clears_version_keeps_branch :
  both_or_neither (yuzu (config DemoUpdate.state)) = true
  /\ fst (detect_yuzu_version Demo.env DemoUpdate.state) = Ok None
  /\ yuzu_version (yuzu (config (snd (detect_yuzu_version Demo.env DemoUpdate.state)))) = None
  /\ branch (yuzu (config (snd (detect_yuzu_version Demo.env DemoUpdate.state)))) = Some "eden"
  /\ both_or_neither (yuzu (config (snd (detect_yuzu_version Demo.env DemoUpdate.state))))
     = false.
Proof. vm_compute. by repeat split. Qed.

Lemma demo_consistent : consistent Demo.env Demo.state0.
Proof.
  split; [by intros _ |]. split; [| by intros H].
  intros k y Hk. change (yuzu_history Demo.state0) with (∅ : gmap string YuzuConfig) in Hk.
  by rewrite lookup_empty in Hk.
Defined.

Lemma version_has_branch_after_writes_witness :
  consistent Demo.env Demo.state0
  /\ yuzu_version (yuzu (config (snd (install_yuzu Demo.env "v0.0.3" "eden" Demo.state0))))
     = Some "v0.0.3"
  /\ branch (yuzu (config (snd (install_yuzu Demo.env "v0.0.3" "eden" Demo.state0))))
     = Some "eden"
  /\ consistent Demo.env (snd (detect_yuzu_version Demo.env Demo.state0)).
Proof.
  destruct (version_has_branch_after_writes Demo.env Demo.state0 "v0.0.3" "eden" "D:/Eden" None
              demo_consistent) as (_ & Hd & _ & _ & Hi & _).
  split; [exact demo_consistent |].
  destruct Hi as [Hv Hb]; [discriminate | vm_compute; reflexivity |].
  by repeat split.
Defined.

(** ** Errors *)

Section Errors.

Variable E : Collab.







End Errors.



(** * Further properties of the module *)

(** ** Which executable is resolved *)

Section ExeChoice.

Lemma first_existing_exists (w : World) (yz : path) (names : list string) (p : path) :
  first_existing w yz names = Some p -> exists_in w p = true.
Proof.
  induction names as [| n names IH]; simpl; [discriminate |].
  destruct (exists_in w (Path.joinpath yz n)) eqn:Hn; [by intros [= <-] | exact IH].
Qed.

Lemma first_existing_none (w : World) (yz : path) (names : list string) :
  first_existing w yz names = None ->
  forall n, n ∈ names -> exists_in w (Path.joinpath yz n) = false.
Proof.
  induction names as [| m names IH]; simpl; intros Hf n Hn.
  - by apply elem_of_nil in Hn.
  - destruct (exists_in w (Path.joinpath yz m)) eqn:Hm; [discriminate |].
    apply elem_of_cons in Hn as [-> | Hn]; [exact Hm | by apply IH].
Qed.

(** X1.  [get_yuzu_exe_path] returns an executable that exists whenever one of
    the four known names exists in the install directory, and only then;
    with none of them it falls back to [yuzu.exe]. *)
Theorem exe_path_exists_iff_candidate (st : State) :
  get_yuzu_exe_path st = (Ok (exe_of st), st)
  /\ (exists_in (world st) (exe_of st) = true <->
      exists n, n ∈ detect_exe_list
                /\ exists_in (world st)
                     (Path.joinpath (Path.of_string (yuzu_path (yuzu (config st)))) n) = true)
  /\ ((forall n, n ∈ detect_exe_list ->
          exists_in (world st)
            (Path.joinpath (Path.of_string (yuzu_path (yuzu (config st)))) n) = false) ->
      exe_of st = Path.joinpath (Path.of_string (yuzu_path (yuzu (config st)))) "yuzu.exe").
Proof.
  split; [reflexivity |].
  unfold exe_of, exe_path_of.
  set (yz := Path.of_string (yuzu_path (yuzu (config st)))).
  set (w := world st).
  destruct ((rename_yuzu_to_cemu (setting (config st))
             || negb (exists_in w (Path.joinpath yz "yuzu.exe")))
            && exists_in w (Path.joinpath yz "cemu.exe")) eqn:Hc.
  - apply andb_prop in Hc as [_ Hcemu]. split; [split |].
    + intros _. exists "cemu.exe". split; [set_solver | exact Hcemu].
    + intros _. exact Hcemu.
    + intros Hnone. rewrite (Hnone "cemu.exe") in Hcemu; [discriminate | set_solver].
  - destruct (first_existing w yz detect_exe_list) as [p |] eqn:Hf.
    + pose proof (first_existing_exists w yz _ p Hf) as Hp.
      apply first_existing_name in Hf as (n & Hn & ->). split; [split |].
      * intros _. by exists n.
      * intros _. exact Hp.
      * intros Hnone. by rewrite (Hnone n Hn) in Hp.
    + pose proof (first_existing_none w yz _ Hf) as Hnone. split; [split |].
      * intros Hy. rewrite (Hnone "yuzu.exe") in Hy; [discriminate | set_solver].
      * intros (n & Hn & Hex). by rewrite (Hnone n Hn) in Hex.
      * reflexivity.
Qed.

(** X2.  The order of preference: [cemu.exe] when it exists and the rename flag
    is set or [yuzu.exe] is absent, before every other name; else
    [yuzu.exe], [eden.exe], [suzu.exe] in this order. *)
Theorem exe_path_preference (st : State) (dir : path) :
  dir = Path.of_string (yuzu_path (yuzu (config st))) ->
  (exists_in (world st) (dir ++ ["cemu.exe"]) = true ->
   rename_yuzu_to_cemu (setting (config st)) = true
   \/ exists_in (world st) (dir ++ ["yuzu.exe"]) = false ->
   exe_of st = dir ++ ["cemu.exe"])
  /\ (exists_in (world st) (dir ++ ["yuzu.exe"]) = true ->
      rename_yuzu_to_cemu (setting (config st)) = false
      \/ exists_in (world st) (dir ++ ["cemu.exe"]) = false ->
      exe_of st = dir ++ ["yuzu.exe"])
  /\ (exists_in (world st) (dir ++ ["yuzu.exe"]) = false ->
      exists_in (world st) (dir ++ ["cemu.exe"]) = false ->
      exists_in (world st) (dir ++ ["eden.exe"]) = true ->
      exe_of st = dir ++ ["eden.exe"])
  /\ (exists_in (world st) (dir ++ ["yuzu.exe"]) = false ->
      exists_in (world st) (dir ++ ["cemu.exe"]) = false ->
      exists_in (world st) (dir ++ ["eden.exe"]) = false ->
      exists_in (world st) (dir ++ ["suzu.exe"]) = true ->
      exe_of st = dir ++ ["suzu.exe"]).
Proof.
  intros ->. unfold exe_of, exe_path_of, detect_exe_list, first_existing.
  set (yz := Path.of_string (yuzu_path (yuzu (config st)))).
  change (Path.joinpath yz "yuzu.exe") with (yz ++ ["yuzu.exe"]).
  change (Path.joinpath yz "cemu.exe") with (yz ++ ["cemu.exe"]).
  change (Path.joinpath yz "eden.exe") with (yz ++ ["eden.exe"]).
  change (Path.joinpath yz "suzu.exe") with (yz ++ ["suzu.exe"]).
  destruct (exists_in (world st) (yz ++ ["yuzu.exe"]));
    destruct (exists_in (world st) (yz ++ ["cemu.exe"]));
    destruct (exists_in (world st) (yz ++ ["eden.exe"]));
    destruct (exists_in (world st) (yz ++ ["suzu.exe"]));
    destruct (rename_yuzu_to_cemu (setting (config st))); simpl;
    repeat split; try done; intros; by intuition.
Qed.

End ExeChoice.

Lemma exe_path_exists_iff_candidate_witness :
  exists_in (world Demo.state0) (exe_of Demo.state0) = true
  /\ exe_of DemoUpdate.state = ["D:"; "Yuzu"; "yuzu.exe"].
Proof.
  destruct (exe_path_exists_iff_candidate Demo.state0) as (_ & [_ Hex] & _).
  destruct (exe_path_exists_iff_candidate DemoUpdate.state) as (_ & _ & Hnone).
  split.
  - apply Hex. exists "eden.exe". split; [set_solver | vm_compute; reflexivity].
  - rewrite Hnone; [reflexivity |].
    intros n Hn. unfold detect_exe_list in Hn.
    repeat (apply elem_of_cons in Hn as [-> | Hn]; [vm_compute; reflexivity |]).
    by apply elem_of_nil in Hn.
Defined.

Lemma exe_path_preference_witness :
  exe_of (DemoMore.state_both true) = ["D:"; "Yuzu"; "cemu.exe"]
  /\ exe_of (DemoMore.state_both false) = ["D:"; "Yuzu"; "yuzu.exe"].
Proof.
  split.
  - destruct (exe_path_preference (DemoMore.state_both true) ["D:"; "Yuzu"] eq_refl) as (H & _).
    apply H; [vm_compute; reflexivity | by left].
  - destruct (exe_path_preference (DemoMore.state_both false) ["D:"; "Yuzu"] eq_refl)
      as (_ & H & _).
    apply H; [vm_compute; reflexivity | by left].
Defined.

(** ** Where the user data is found *)

Section UserPath.

(** X3.  [get_yuzu_user_path] prefers the [user] folder of the install
    directory, then the roaming folder of yuzu, then that of Eden, each
    when it exists, and falls back to the [user] folder of the install
    directory; it needs [%appdata%] only when that folder is missing, and
    raises [KeyError] then if the variable is unset.  A path it returns
    that is not the in-tree folder exists. *)
Theorem user_path_order (st : State) (in_tree : path) :
  in_tree = Path.joinpath (Path.of_string (yuzu_path (yuzu (config st)))) "user/" ->
  (exists_in (world st) in_tree = true ->
   get_yuzu_user_path st = (Ok in_tree, st))
  /\ (exists_in (world st) in_tree = false ->
      appdata (world st) = None ->
      get_yuzu_user_path st = (Raise (KeyError "appdata"), st))
  /\ (forall a,
        exists_in (world st) in_tree = false ->
        appdata (world st) = Some a ->
        get_yuzu_user_path st
        = (Ok (if exists_in (world st) (Path.joinpath (Path.of_string a) "yuzu/")
               then Path.joinpath (Path.of_string a) "yuzu/"
               else if exists_in (world st) (Path.joinpath (Path.of_string a) "eden/")
                    then Path.joinpath (Path.of_string a) "eden/"
                    else in_tree), st))
  /\ (forall p,
        fst (get_yuzu_user_path st) = Ok p ->
        p <> in_tree ->
        exists_in (world st) p = true).
Proof.
  intros ->.
  set (in_tree := Path.joinpath (Path.of_string (yuzu_path (yuzu (config st)))) "user/").
  assert (Hrun : get_yuzu_user_path st
                 = if exists_in (world st) in_tree then (Ok in_tree, st)
                   else match appdata (world st) with
                        | None => (Raise (KeyError "appdata"), st)
                        | Some a =>
                            (Ok (if exists_in (world st) (Path.joinpath (Path.of_string a) "yuzu/")
                                 then Path.joinpath (Path.of_string a) "yuzu/"
                                 else if exists_in (world st)
                                           (Path.joinpath (Path.of_string a) "eden/")
                                      then Path.joinpath (Path.of_string a) "eden/"
                                      else in_tree), st)
                        end).
  { unfold get_yuzu_user_path, environ_appdata. mstep. fold in_tree.
    destruct (exists_in (world st) in_tree); [reflexivity |].
    destruct (appdata (world st)) as [a |] eqn:Ha; mstep; [| reflexivity].
    destruct (exists_in (world st) (Path.joinpath (Path.of_string a) "yuzu/"));
      mstep; rewrite ?Ha; [reflexivity |].
    mstep. by destruct (exists_in (world st) (Path.joinpath (Path.of_string a) "eden/"));
      mstep; rewrite ?Ha. }
  rewrite Hrun.
  split; [by intros -> |].
  split; [by intros -> -> |].
  split; [by intros a -> -> |].
  intros p. destruct (exists_in (world st) in_tree) eqn:Hin; simpl; [by intros [= <-] |].
  destruct (appdata (world st)) as [a |]; simpl; [| discriminate].
  destruct (exists_in (world st) (Path.joinpath (Path.of_string a) "yuzu/")) eqn:Hy;
    [by intros [= <-] |].
  destruct (exists_in (world st) (Path.joinpath (Path.of_string a) "eden/")) eqn:He;
    by intros [= <-].
Qed.

End UserPath.

Lemma user_path_order_witness :
  fst (get_yuzu_user_path DemoMore.state_roaming)
  = Ok ["C:"; "Users"; "me"; "AppData"; "Roaming"; "eden"]
  /\ exists_in (world DemoMore.state_roaming)
       ["C:"; "Users"; "me"; "AppData"; "Roaming"; "eden"] = true.
Proof.
  destruct (user_path_order DemoMore.state_roaming _ eq_refl) as (_ & _ & Hroam & Hex).
  assert (Hp : fst (get_yuzu_user_path DemoMore.state_roaming)
               = Ok ["C:"; "Users"; "me"; "AppData"; "Roaming"; "eden"]).
  { rewrite (Hroam "C:\Users\me\AppData\Roaming"); vm_compute; reflexivity. }
  split; [exact Hp |]. apply Hex; [exact Hp | vm_compute; discriminate].
Defined.

(** ** Firmware *)

Section Firmware.

Variable E : Collab.

(** X4.  Asking for the firmware that is recorded, and asking for none when none
    is recorded, installs nothing: [install_firmware_to_yuzu] returns and
    only a notification is sent. *)
Theorem install_firmware_same_version_skips (fv : option string) (st : State) :
  fv = yuzu_firmware (yuzu (config st)) ->
  fst (install_firmware_to_yuzu E fv st) = Ok tt
  /\ only_notified st (snd (install_firmware_to_yuzu E fv st)).
Proof.
  intros Hfv. unfold install_firmware_to_yuzu. mstep.
  rewrite bool_decide_eq_true_2 by exact Hfv. by repeat split.
Qed.


End Firmware.

Lemma install_firmware_same_version_skips_witness :
  fst (install_firmware_to_yuzu Demo.env None Demo.state0) = Ok tt
  /\ config (snd (install_firmware_to_yuzu Demo.env None Demo.state0)) = config Demo.state0.
Proof.
  destruct (install_firmware_same_version_skips Demo.env None Demo.state0 eq_refl)
    as (Hr & Hc & _).
  by split.
Defined.


(** ** Polling the windows *)

Section Polling.

Variable E : Collab.

Lemma poll_windows_step (remaining try_cnt : nat) (version branch : option string) (st : State) :
  poll_windows E (S remaining) try_cnt version branch st
  = if Str.truthy_opt version then (Ok (version, branch), st)
    else match get_all_window_name E try_cnt (world st) with
         | Raise _ => (Ok (version, branch), st)
         | Ok names =>
             match scan_windows names version branch st with
             | (Ok vb, st1) => poll_windows E remaining (S try_cnt) (fst vb) (snd vb) st1
             | (Raise e, st1) => (Raise e, st1)
             end
         end.
Proof.
  unfold poll_windows; fold poll_windows.
  destruct (Str.truthy_opt version); [reflexivity |].
  mstep. by destruct (get_all_window_name E try_cnt (world st)).
Qed.

Lemma scan_windows_unrecognised (names : list string) (version branch : option string)
      (st : State) :
  unrecognised names = true ->
  scan_windows names version branch st = (Ok (version, branch), st).
Proof.
  unfold unrecognised.
  induction names as [| t names IH]; simpl; [done |].
  intros H. apply andb_prop in H as [Ht Hrest].
  apply negb_true_iff, orb_false_iff in Ht as [Hy He].
  rewrite Hy, He. by apply IH.
Qed.

Lemma poll_windows_quiet (remaining try_cnt : nat) (st : State) :
  quiet E (world st) try_cnt remaining ->
  poll_windows E remaining try_cnt None None st = (Ok (None, None), st).
Proof.
  revert try_cnt. induction remaining as [| r IH]; intros k Hq; [reflexivity |].
  rewrite poll_windows_step. simpl.
  destruct (Hq k) as (names & Hn & Hu); [lia |].
  rewrite Hn, (scan_windows_unrecognised names None None st Hu). simpl.
  apply IH. intros n Hn'. apply Hq. lia.
Qed.

Lemma poll_windows_found_later
      (later remaining try_cnt : nat) (names : list string) (ver br : string) (st : State) :
  later < remaining ->
  quiet E (world st) try_cnt later ->
  get_all_window_name E (try_cnt + later) (world st) = Ok names ->
  first_title names = Some (ver, br) ->
  Str.truthy ver = true ->
  fst (poll_windows E remaining try_cnt None None st) = Ok (Some ver, Some br).
Proof.
  revert remaining try_cnt.
  induction later as [| j IH]; intros r k Hlt Hq Hnames Hfirst Hver.
  - destruct r as [| r]; [lia |]. rewrite poll_windows_step. simpl.
    rewrite Nat.add_0_r in Hnames. rewrite Hnames.
    destruct (scan_windows_run names None None st) as [Hr _].
    destruct (scan_windows names None None st) as [res st1]; simpl in Hr. subst res.
    rewrite Hfirst. simpl.
    destruct r as [| r]; [reflexivity |]. rewrite poll_windows_step. simpl. by rewrite Hver.
  - destruct r as [| r]; [lia |]. rewrite poll_windows_step. simpl.
    destruct (Hq k) as (quiet_names & Hn & Hu); [lia |].
    rewrite Hn, (scan_windows_unrecognised quiet_names None None st Hu). simpl.
    apply IH; [lia | | by replace (S k + j) with (k + S j) by lia | done | done].
    intros n Hn'. apply Hq. lia.
Qed.

Lemma poll_windows_blank (remaining try_cnt : nat) (version branch : option string) (st : State) :
  Str.truthy_opt version = false ->
  blank E (world st) try_cnt (S remaining) ->
  exists b, fst (poll_windows E (S remaining) try_cnt version branch st) = Ok (Some "", b).
Proof.
  revert try_cnt version branch st.
  induction remaining as [| r IH]; intros k version branch st Hv Hb;
    rewrite poll_windows_step, Hv;
    (destruct (Hb k) as (names & br & Hn & Hf); [lia |]); rewrite Hn;
    destruct (scan_windows_run names version branch st) as [Hr (_ & _ & _ & Hw)];
    destruct (scan_windows names version branch st) as [res st1]; simpl in Hr, Hw; subst res;
    rewrite Hf; simpl.
  - by eexists.
  - apply IH; [reflexivity |]. rewrite Hw. intros n Hn'. apply Hb. lia.
Qed.

(** X6.  When the emulator is started and none of the 30 enumerations of the
    windows shows a title starting with ["yuzu "] or ["Eden | "], the
    detector gives up: it returns [None], clears the recorded version, keeps
    the branch and persists.  What the windows would show after the 30th
    enumeration plays no part. *)
Theorem detect_times_out_after_30_polls (st : State) :
  exists_in (world st) (exe_of st) = true ->
  busy st = false ->
  quiet E (launched_world st) 0 30 ->
  fst (detect_yuzu_version E st) = Ok None
  /\ yuzu_version (yuzu (config (snd (detect_yuzu_version E st)))) = None
  /\ branch (yuzu (config (snd (detect_yuzu_version E st)))) = branch (yuzu (config st))
  /\ saved (snd (detect_yuzu_version E st)) = Some (config (snd (detect_yuzu_version E st))).
Proof.
  intros Hex Hbusy Hq.
  destruct (detect_polled E st Hex Hbusy) as (vb & st2 & Hpoll & Hr & Hy & _ & Hs & _).
  rewrite (poll_windows_quiet 30 0 (launched st) Hq) in Hpoll.
  injection Hpoll as <- <-. simpl in Hr, Hy. by rewrite Hr, Hy, Hs.
Qed.

(** X7.  A title that appears at a later enumeration, before the 30th, is read
    all the same: after enumerations without a recognised title, the first
    enumeration with one that carries a version makes the detector return
    that version and record it with the branch of its prefix. *)
Theorem detect_finds_title_at_later_poll
    (st : State) (later : nat) (names : list string) (ver br : string) :
  exists_in (world st) (exe_of st) = true ->
  busy st = false ->
  later < 30 ->
  quiet E (launched_world st) 0 later ->
  get_all_window_name E later (launched_world st) = Ok names ->
  first_title names = Some (ver, br) ->
  Str.truthy ver = true ->
  fst (detect_yuzu_version E st) = Ok (Some ver)
  /\ yuzu_version (yuzu (config (snd (detect_yuzu_version E st)))) = Some ver
  /\ branch (yuzu (config (snd (detect_yuzu_version E st)))) = Some br.
Proof.
  intros Hex Hbusy Hlt Hq Hnames Hfirst Hver.
  destruct (detect_polled E st Hex Hbusy) as (vb & st2 & Hpoll & Hr & Hy & _).
  pose proof (poll_windows_found_later later 30 0 names ver br (launched st) Hlt Hq Hnames
                Hfirst Hver) as Hfound.
  rewrite Hpoll in Hfound. simpl in Hfound. injection Hfound as ->.
  simpl in Hr, Hy. rewrite Hr, Hy. simpl. by rewrite Hver.
Qed.

(** X8.  A window whose title is a recognised prefix and nothing more does not
    end the polling; when all 30 enumerations show such a title, the
    detector returns the empty string, records it as the version and leaves
    the branch as it was. *)
Theorem detect_records_empty_version (st : State) :
  exists_in (world st) (exe_of st) = true ->
  busy st = false ->
  blank E (launched_world st) 0 30 ->
  fst (detect_yuzu_version E st) = Ok (Some "")
  /\ yuzu_version (yuzu (config (snd (detect_yuzu_version E st)))) = Some ""
  /\ branch (yuzu (config (snd (detect_yuzu_version E st)))) = branch (yuzu (config st)).
Proof.
  intros Hex Hbusy Hb.
  destruct (detect_polled E st Hex Hbusy) as (vb & st2 & Hpoll & Hr & Hy & _).
  destruct (poll_windows_blank 29 0 None None (launched st) eq_refl Hb) as [b Hblank].
  rewrite Hpoll in Hblank. simpl in Hblank. injection Hblank as ->.
  simpl in Hr, Hy. by rewrite Hr, Hy.
Qed.

End Polling.

Lemma detect_times_out_after_30_polls_witness :
  fst (detect_yuzu_version DemoMore.env_silent Demo.state0) = Ok None
  /\ yuzu (config (snd (detect_yuzu_version DemoMore.env_silent Demo.state0)))
     = mkYuzuConfig "D:\Yuzu" None None (Some "eden").
Proof.
  destruct (detect_times_out_after_30_polls DemoMore.env_silent Demo.state0)
    as (Hr & Hv & Hb & _).
  - vm_compute. reflexivity.
  - vm_compute. reflexivity.
  - intros n _. exists ["Program Manager"]. split; reflexivity.
  - split; [exact Hr |]. vm_compute. reflexivity.
Defined.

Lemma detect_finds_title_at_later_poll_witness :
  fst (detect_yuzu_version DemoMore.env_slow Demo.state0) = Ok (Some "4176")
  /\ branch (yuzu (config (snd (detect_yuzu_version DemoMore.env_slow Demo.state0))))
     = Some "ea".
Proof.
  destruct (detect_finds_title_at_later_poll DemoMore.env_slow Demo.state0 2
              ["Program Manager"; "yuzu Early Access 4176"] "4176" "ea")
    as (Hr & _ & Hb).
  - vm_compute. reflexivity.
  - vm_compute. reflexivity.
  - lia.
  - intros n Hn. exists ["Program Manager"]. split; [| reflexivity].
    destruct n as [| [| n]]; [reflexivity | reflexivity | lia].
  - reflexivity.
  - reflexivity.
  - reflexivity.
  - by split.
Defined.

Lemma detect_records_empty_version_witness :
  fst (detect_yuzu_version DemoMore.env_blank Demo.state0) = Ok (Some "")
  /\ yuzu_version (yuzu (config (snd (detect_yuzu_version DemoMore.env_blank Demo.state0))))
     = Some "".
Proof.
  destruct (detect_records_empty_version DemoMore.env_blank Demo.state0) as (Hr & Hv & _).
  - vm_compute. reflexivity.
  - vm_compute. reflexivity.
  - intros n _. exists ["Eden | "], "eden". split; reflexivity.
  - by split.
Defined.

(** ** Copying the unpacked files *)

Section CopyBack.

Variable E : Collab.


End CopyBack.


(** ** What an install leaves behind *)

Section InstallOutcome.

Variable E : Collab.

Lemma install_yuzu_outcome (v b : string) (st : State) (r : result unit) (st' : State) :
  yuzu_version (yuzu (config st)) <> Some v ->
  install_yuzu E v b st = (r, st') ->
  (r <> Ok tt /\ keeps_config st st')
  \/ (b = "eden"
      /\ config st' = mkConfig (mkYuzuConfig (yuzu_path (yuzu (config st))) (Some v)
                                  (yuzu_firmware (yuzu (config st))) (Some b))
                               (setting (config st))
      /\ saved st' = Some (config st')).
Proof.
  intros Hv. unfold install_yuzu. unfold bind at 1. unfold get_config at 1.
  rewrite bool_decide_eq_false_2 by done.
  destruct (String.eqb b "eden") eqn:Hb; cbn [negb].
  2:{ mstep. intros [= <- <-]. left. by repeat split. }
  apply String.eqb_eq in Hb. subst b.
  rewrite (bind_run (install_eden E v)).
  pose proof (preserves_install_eden E v st) as (Hc1 & Hs1 & Hh1).
  destruct (install_eden E v st) as [[[] | e] st1]; simpl in Hc1, Hs1, Hh1; simpl;
    [| intros [= <- <-]; left; by repeat split].
  unfold mkdir_parents, get_yuzu_exe_path, os_replace. mstep.
  set (w1 := with_files (world st1) _).
  destruct (rename_yuzu_to_cemu (setting (config st1))
            && exists_in w1 (exe_path_of (config st1) w1)) eqn:Hren; mstep.
  - destruct (exists_in w1 (exe_path_of (config st1) w1)); mstep.
    + destruct (check_and_install_msvc E _) as [[[] | e] w2]; mstep;
        intros [= <- <-]; simpl; rewrite Hc1; right; by repeat split.
    + intros [= <- <-]; simpl. left. by repeat split.
  - destruct (check_and_install_msvc E _) as [[[] | e] w2]; mstep;
      intros [= <- <-]; simpl; rewrite Hc1; right; by repeat split.
Qed.

(** X10.  In every outcome of [install_yuzu], a failure included, the version in
    memory and the persisted one go together: either configuration and
    persisted copy are what they were, or the target version and the branch
    are recorded and that configuration is the persisted one.  An install
    that returns has recorded them unless it skipped. *)
Theorem install_yuzu_records_and_persists_together (v b : string) (st : State) :
  (config (snd (install_yuzu E v b st)) = config st
   /\ saved (snd (install_yuzu E v b st)) = saved st)
  \/ (yuzu_version (yuzu (config (snd (install_yuzu E v b st)))) = Some v
      /\ branch (yuzu (config (snd (install_yuzu E v b st)))) = Some "eden"
      /\ b = "eden"
      /\ saved (snd (install_yuzu E v b st)) = Some (config (snd (install_yuzu E v b st)))).
Proof.
  destruct (decide (yuzu_version (yuzu (config st)) = Some v)) as [Hv | Hv].
  - destruct (install_yuzu_same_version E v b st Hv) as (_ & Hc & Hs & _). by left.
  - destruct (install_yuzu E v b st) as [r st'] eqn:Hrun. simpl.
    destruct (install_yuzu_outcome v b st r st' Hv Hrun)
      as [(_ & Hc & Hs & _) | (-> & Hc & Hs)]; [by left |].
    right. rewrite Hs, Hc. by repeat split.
Qed.

(** X11.  When fetching, unpacking or copying fails, [install_yuzu] raises that
    very exception and records nothing: configuration, persisted copy and
    history are as before. *)
Theorem install_yuzu_failure_records_nothing (v : string) (st : State) (e : exn) :
  yuzu_version (yuzu (config st)) <> Some v ->
  fst (install_eden E v st) = Raise e ->
  fst (install_yuzu E v "eden" st) = Raise e
  /\ keeps_config st (snd (install_yuzu E v "eden" st)).
Proof.
  intros Hv Heden.
  destruct (install_yuzu E v "eden" st) as [r st'] eqn:Hrun. simpl. revert Hrun.
  unfold install_yuzu. unfold bind at 1. unfold get_config at 1.
  rewrite bool_decide_eq_false_2 by done. cbn [String.eqb negb]. simpl.
  rewrite (bind_run (install_eden E v)).
  pose proof (preserves_install_eden E v st) as Hkeep.
  destruct (install_eden E v st) as [[[] | e'] st1]; simpl in Heden, Hkeep; [discriminate |].
  injection Heden as ->. by intros [= <- <-].
Qed.

End InstallOutcome.

Lemma install_yuzu_failure_records_nothing_witness :
  fst (install_yuzu DemoErrors.env_copy_fails "v0.0.3" "eden" Demo.state0)
  = Raise (FailToCopyFiles (ExternalError "PermissionError") "Yuzu 文件复制失败")
  /\ config (snd (install_yuzu DemoErrors.env_copy_fails "v0.0.3" "eden" Demo.state0))
     = config Demo.state0.
Proof.
  destruct (install_yuzu_failure_records_nothing DemoErrors.env_copy_fails "v0.0.3" Demo.state0
              (FailToCopyFiles (ExternalError "PermissionError") "Yuzu 文件复制失败"))
    as (Hr & Hc & _).
  - discriminate.
  - vm_compute. reflexivity.
  - by split.
Defined.

(** a failing runtime installer: the install raises, the version is
    recorded and persisted *)
Example install_msvc_fails_after_recording :
  fst (install_yuzu DemoMore.env_msvc_fails "v0.0.3" "eden" Demo.state0)
  = Raise (ExternalError "msvc")
  /\ yuzu_version (yuzu (config (snd (install_yuzu DemoMore.env_msvc_fails "v0.0.3" "eden"
                                       Demo.state0)))) = Some "v0.0.3"
  /\ saved (snd (install_yuzu DemoMore.env_msvc_fails "v0.0.3" "eden" Demo.state0))
     = Some (config (snd (install_yuzu DemoMore.env_msvc_fails "v0.0.3" "eden" Demo.state0))).
Proof. vm_compute. by repeat split. Qed.

(** ** Paths and their strings *)

Section PathStrings.


Lemma append_empty_r (x : string) : x +:+ "" = x.
Proof. induction x as [| a x IH]; [reflexivity |]. by rewrite <- IH at 2. Qed.


















End PathStrings.

(** ** Switching the install path *)

Section SwitchPath.

Variable E : Collab.





End SwitchPath.



(** ** The keys folder *)

Section KeysFolder.

(** X14.  [open_yuzu_keys_folder] creates the [keys] folder under the user-data
    path and the note in it, removes no file and leaves the configuration
    alone; when the user-data path cannot be resolved it raises that error
    and does nothing. *)
Theorem open_yuzu_keys_folder_creates_folder_and_note (st : State) :
  match fst (get_yuzu_user_path st) with
  | Ok user_path =>
      fst (open_yuzu_keys_folder st) = Ok tt
      /\ keeps_config st (snd (open_yuzu_keys_folder st))
      /\ exists_in (world (snd (open_yuzu_keys_folder st))) (user_path ++ ["keys"]) = true
      /\ exists_in (world (snd (open_yuzu_keys_folder st)))
                   (user_path ++ ["keys"; keys_note]) = true
      /\ files (world st) ⊆ files (world (snd (open_yuzu_keys_folder st)))
  | Raise e => open_yuzu_keys_folder st = (Raise e, st)
  end.
Proof.
  pose proof (get_yuzu_user_path_frame st) as Hst.
  destruct (open_yuzu_keys_folder st) as [r st'] eqn:Hop. simpl snd. simpl fst at 2.
  revert Hop. unfold open_yuzu_keys_folder. rewrite bind_run.
  destruct (get_yuzu_user_path st) as [[up | e] st1]; simpl in Hst; subst st1; simpl;
    [| by intros [= <- <-]].
  change (Path.joinpath up "keys") with (up ++ ["keys"]).
  change (Path.joinpath (up ++ ["keys"]) "把prod.keys放当前目录.txt")
    with ((up ++ ["keys"]) ++ [keys_note]).
  assert (Hkeys : up ++ ["keys"] ∈ files (world st) ∪ list_to_set (parents_and_self (up ++ ["keys"]))).
  { apply elem_of_union_r, self_in_parents. by destruct up. }
  unfold mkdir_parents, touch, popen_command. mstep.
  rewrite removelast_last.
  destruct (up ++ ["keys"]) as [| c keys] eqn:Hk; [by destruct up |]. rewrite <- Hk in *.
  unfold exists_in at 1, with_files at 1. simpl.
  rewrite bool_decide_eq_true_2 by exact Hkeys. mstep.
  intros [= <- <-]. unfold exists_in, with_procs, with_files. simpl.
  split; [done |]. split; [done |].
  split; [apply bool_decide_eq_true_2; by apply elem_of_union_l |].
  split; [apply bool_decide_eq_true_2, elem_of_union_r, elem_of_singleton;
          by rewrite <- app_assoc |].
  intros q Hq. by do 2 apply elem_of_union_l.
Qed.

End KeysFolder.

(** ** The commit log *)

Section CommitLogProperties.

Variable request_github_api : string -> World -> result (list CommitInfo).

Lemma splitlines_go_cur (s cur : string) (skip : nat) :
  cur <> "" -> Text.splitlines_go skip cur s <> [].
Proof.
  revert cur skip. induction s as [| a s IH]; intros cur skip Hcur; simpl.
  - apply String.eqb_neq in Hcur. by rewrite Hcur.
  - destruct skip as [| k]; [| by apply IH].
    destruct (Text.break_len (String a s)); [by apply IH | discriminate].
Qed.

(** a message without lines is the empty message *)
Lemma splitlines_nil (s : string) : Text.splitlines s = [] <-> s = "".
Proof.
  split; [| by intros ->].
  unfold Text.splitlines. destruct s as [| a s]; [done |]. simpl.
  destruct (Text.break_len (String a s)); [| discriminate].
  intros H. by apply splitlines_go_cur in H.
Qed.

Lemma render_message_raises (msg : string) :
  render_message msg = Raise (IndexError "list index out of range") <-> msg = "".
Proof.
  unfold render_message. rewrite <- splitlines_nil.
  destruct (Text.splitlines msg) as [| first [| second more]]; split; done.
Qed.

Lemma render_message_entry (msg : string) :
  msg <> "" -> render_message msg = Ok (entry_of msg).
Proof.
  intros Hmsg. unfold entry_of.
  destruct (render_message msg) as [entry | e] eqn:Hr; [reflexivity |].
  exfalso. apply Hmsg. apply render_message_raises. rewrite Hr.
  unfold render_message in Hr.
  by destruct (Text.splitlines msg) as [| first [| second more]]; simplify_eq.
Qed.

Lemma append_assoc (x y z : string) : (x +:+ y) +:+ z = x +:+ y +:+ z.
Proof.
  induction x as [| a x IH]; [reflexivity |].
  change ((String a x +:+ y) +:+ z) with (String a ((x +:+ y) +:+ z)). by rewrite IH.
Qed.

Lemma commit_logs_loop_empty_message (resp : list CommitInfo) (last_date markdown : string) :
  Exists (fun c => commit_message c = "") resp ->
  commit_logs_loop resp last_date markdown = Raise (IndexError "list index out of range").
Proof.
  revert last_date markdown.
  induction resp as [| c resp IH]; intros last md Hex; [by apply Exists_nil in Hex |].
  simpl. destruct (negb (String.eqb last (day_of c)));
    (destruct (render_message (commit_message c)) as [entry | e] eqn:Hr;
     [apply IH; apply Exists_cons in Hex as [Hc | Hrest]; [| exact Hrest];
      apply render_message_raises in Hc; congruence
     | unfold render_message in Hr;
       by destruct (Text.splitlines (commit_message c)) as [| first [| second more]];
       simplify_eq]).
Qed.

Lemma commit_logs_loop_body (resp : list CommitInfo) (last_date markdown : string) :
  Forall (fun c => commit_message c <> "") resp ->
  commit_logs_loop resp last_date markdown = Ok (markdown +:+ body_of resp last_date).
Proof.
  revert last_date markdown.
  induction resp as [| c resp IH]; intros last md Hall; simpl.
  - by rewrite append_empty_r.
  - apply Forall_cons in Hall as [Hc Hrest].
    rewrite (render_message_entry _ Hc).
    destruct (String.eqb last (day_of c)) eqn:Hd; simpl.
    + apply String.eqb_eq in Hd. subst last. rewrite (IH _ _ Hrest).
      by rewrite append_assoc.
    + rewrite (IH _ _ Hrest). by rewrite !append_assoc.
Qed.

(** X15.  [get_yuzu_commit_logs] fails as a whole, with [IndexError], as soon as
    one commit of the answer has an empty message; with no such commit it
    returns a document that starts with the title.  A failing request is
    raised as it is.  The state is not touched. *)
Theorem commit_logs_fail_on_empty_message (st : State) :
  snd (get_yuzu_commit_logs request_github_api st) = st
  /\ match request_github_api "https://api.github.com/repos/yuzu-emu/yuzu/commits" (world st)
     with
     | Ok resp =>
         (Exists (fun c => commit_message c = "") resp ->
          fst (get_yuzu_commit_logs request_github_api st)
          = Raise (IndexError "list index out of range"))
         /\ (Forall (fun c => commit_message c <> "") resp ->
             fst (get_yuzu_commit_logs request_github_api st)
             = Ok (commits_title +:+ body_of resp ""))
     | Raise e => fst (get_yuzu_commit_logs request_github_api st) = Raise e
     end.
Proof.
  unfold get_yuzu_commit_logs. mstep.
  destruct (request_github_api _ (world st)) as [resp | e]; simpl; [| done].
  split; [reflexivity |]. split; intros H.
  - by rewrite commit_logs_loop_empty_message.
  - by rewrite commit_logs_loop_body.
Qed.

(** X16.  Commits of one day that follow each other are listed under one
    header: for a run of commits of the day the previous commit had, the
    loop adds their entries and no header; after a commit of another day it
    adds one header, before the first entry. *)
Theorem commit_logs_one_header_per_run (resp : list CommitInfo) (day last_date markdown : string) :
  Forall (fun c => day_of c = day) resp ->
  Forall (fun c => commit_message c <> "") resp ->
  resp <> [] ->
  commit_logs_loop resp last_date markdown
  = Ok (markdown
        +:+ (if String.eqb last_date day then ""
             else "## " +:+ day +:+ Text.nl +:+ Text.nl)
        +:+ String.concat "" (map (fun c => entry_of (commit_message c)) resp)).
Proof.
  intros Hday Hmsg Hne. rewrite (commit_logs_loop_body _ _ _ Hmsg). do 2 f_equal.
  assert (Hrun : forall l, Forall (fun c => day_of c = day) l ->
                           body_of l day
                           = String.concat "" (map (fun c => entry_of (commit_message c)) l)).
  { induction l as [| c l IH]; intros Hl; [reflexivity |].
    apply Forall_cons in Hl as [Hc Hl]. simpl. rewrite Hc, String.eqb_refl, (IH Hl).
    destruct l as [| c' l]; simpl; [by rewrite !append_empty_r | reflexivity]. }
  destruct resp as [| c resp]; [done |].
  apply Forall_cons in Hday as [Hc Hrest]. simpl. rewrite Hc, (Hrun resp Hrest).
  f_equal.
  destruct resp as [| c' resp]; simpl; [by rewrite !append_empty_r | reflexivity].
Qed.

End CommitLogProperties.

Lemma commit_logs_one_header_per_run_witness :
  commit_logs_loop [mkCommitInfo "2024-02-01T10:00:00Z" "Fix crash on boot";
                    mkCommitInfo "2024-02-01T08:30:00Z" "Update translations"]
                   "" commits_title
  = Ok (commits_title +:+ "## 2024-02-01" +:+ Text.nl +:+ Text.nl
        +:+ " - Fix crash on boot" +:+ Text.nl +:+ Text.nl
        +:+ " - Update translations" +:+ Text.nl +:+ Text.nl).
Proof.
  rewrite (commit_logs_one_header_per_run _ "2024-02-01").
  - vm_compute. reflexivity.
  - repeat constructor.
  - repeat constructor; discriminate.
  - discriminate.
Defined.

Example commit_logs_ex :
  fst (get_yuzu_commit_logs (DemoMore.api (Ok (mkCommitInfo "2024-02-02T01:00:00Z" ""
                                                 :: DemoMore.commits))) Demo.state0)
  = Raise (IndexError "list index out of range").
Proof. vm_compute. reflexivity. Qed.

(** ** The downloaded package *)

Section Package.

Variable E : Collab.

(** X17.  With [autoDeleteAfterInstall] set, an [install_eden] that returns has
    removed the package it downloaded: the file [download_yuzu] answered
    with does not exist afterwards. *)
Theorem install_eden_deletes_package (v : string) (st : State) (pkg : path) :
  autoDeleteAfterInstall (setting (config st)) = true ->
  fst (download_yuzu E v "eden" st) = Ok pkg ->
  fst (install_eden E v st) = Ok tt ->
  exists_in (world (snd (install_eden E v st))) pkg = false.
Proof.
  intros Hflag Hdl.
  destruct (install_eden E v st) as [r st'] eqn:Hop. simpl. revert Hop.
  unfold install_eden. rewrite bind_run. unfold get_config at 1. rewrite bind_run.
  pose proof (preserves_download_yuzu E v "eden" st) as (Hc1 & _).
  destruct (download_yuzu E v "eden" st) as [[pkg0 | e] st1]; simpl in Hdl, Hc1;
    [| discriminate]. injection Hdl as ->.
  rewrite bind_run. unfold get_world at 1. rewrite bind_run.
  pose proof (preserves_unzip_yuzu E pkg (Some (Path.joinpath (tempdir (world st1))
                                                   "eden-install")) st1) as (Hc2 & _).
  destruct (unzip_yuzu E pkg _ st1) as [[dir | e] st2]; simpl in Hc2;
    [| by intros [= <- <-] [=]].
  rewrite bind_run.
  pose proof (preserves_copy_back_yuzu_files E (Path.joinpath (tempdir (world st1))
                                                   "eden-install")
                (Path.of_string (yuzu_path (yuzu (config st)))) st2) as (Hc3 & _).
  destruct (copy_back_yuzu_files E _ _ st2) as [[[] | e] st3]; simpl in Hc3;
    [| by intros [= <- <-] [=]].
  rewrite bind_run. unfold get_config at 1.
  rewrite Hc3, Hc2, Hc1, Hflag. unfold os_remove. mstep.
  destruct (exists_in (world st3) pkg) eqn:Hex; mstep; intros [= <- <-]; [| discriminate].
  intros _. unfold with_files, exists_in. simpl. apply bool_decide_eq_false_2.
  rewrite elem_of_difference, elem_of_singleton. by intros [_ Hn].
Qed.

End Package.

Lemma install_eden_deletes_package_witness :
  fst (install_eden Demo.env "v0.0.3" DemoMore.state_autodelete) = Ok tt
  /\ exists_in (world (snd (install_eden Demo.env "v0.0.3" DemoMore.state_autodelete)))
               ["D:"; "tmp"; "eden.zip"] = false.
Proof.
  assert (Hr : fst (install_eden Demo.env "v0.0.3" DemoMore.state_autodelete) = Ok tt)
    by (vm_compute; reflexivity).
  split; [exact Hr |].
  apply (install_eden_deletes_package Demo.env "v0.0.3" DemoMore.state_autodelete);
    [reflexivity | vm_compute; reflexivity | exact Hr].
Defined.
